(** * Verification of the calculus verifier (py/verifier/src/verifier/calculus.py)

    The module drives SymPy and pint.  Those libraries are not part of the
    repository: they are represented by the record [SymPyLib] of their
    operations, each of which may raise a Python exception.  Everything the
    module itself does (its try/except structure, the parser audit, the
    Python operators it applies to SymPy objects, the numeric loops and the
    result dictionaries) is written out below. *)

From Stdlib Require Import String Ascii ZArith QArith Qabs List Bool Lia.
Import ListNotations.
Open Scope string_scope.

(** ** Python exceptions and the error monad *)

(** Exception classes met on the paths of the module.  The first nine are
    subclasses of [Exception] ([OtherError] stands for any other one);
    [SystemExit], [KeyboardInterrupt] and [GeneratorExit] derive from
    [BaseException] only, so [except Exception] does not catch them.  Text
    given to [parse_expr] can raise them, e.g. through the builtins [exec]
    and [eval] that [parse_expr] exposes ([exec('raise SystemExit')]). *)
Inductive ExcClass :=
| ValueError
| TypeError
| ZeroDivisionError
| NameError
| AttributeError
| FileNotFoundError
| NotImplementedError
| SyntaxError
| OtherError
| SystemExit
| KeyboardInterrupt
| GeneratorExit.

Record PyExc := mkExc { exc_class : ExcClass; exc_msg : string }.

(** [isinstance(e, Exception)]. *)
Definition is_Exception (c : ExcClass) : bool :=
  match c with
  | ValueError | TypeError | ZeroDivisionError | NameError | AttributeError
  | FileNotFoundError | NotImplementedError | SyntaxError | OtherError => true
  | SystemExit | KeyboardInterrupt | GeneratorExit => false
  end.

Inductive Py (A : Type) : Type :=
| PyOk (a : A)
| PyErr (e : PyExc).
Arguments PyOk {A} a.
Arguments PyErr {A} e.

Definition py_bind {A B} (m : Py A) (k : A -> Py B) : Py B :=
  match m with
  | PyOk a => k a
  | PyErr e => PyErr e
  end.

Notation "x <- m ;; k" := (py_bind m (fun x => k))
  (at level 61, m at next level, right associativity).

Definition raise {A} (c : ExcClass) (msg : string) : Py A := PyErr (mkExc c msg).

(** [try: m  except <classes in [catches]> as e: h e] *)
Definition py_try {A} (m : Py A) (catches : ExcClass -> bool)
  (h : PyExc -> Py A) : Py A :=
  match m with
  | PyOk a => PyOk a
  | PyErr e => if catches (exc_class e) then h e else PyErr e
  end.

Definition catches_Value_Type (c : ExcClass) : bool :=
  match c with ValueError | TypeError => true | _ => false end.

Definition catches_Value_Type_ZeroDiv (c : ExcClass) : bool :=
  match c with ValueError | TypeError | ZeroDivisionError => true | _ => false end.

(** ** Python floats

    A Python float is finite (its value kept as a rational; rounding plays
    no part in the properties below), an infinity, or NaN. *)
Inductive PyFloat :=
| FFin (q : Q)
| FPosInf
| FNegInf
| FNaN.

Definition fsub (a b : PyFloat) : PyFloat :=
  match a, b with
  | FNaN, _ | _, FNaN => FNaN
  | FFin x, FFin y => FFin (x - y)
  | FPosInf, FPosInf | FNegInf, FNegInf => FNaN
  | FPosInf, _ | _, FNegInf => FPosInf
  | FNegInf, _ | _, FPosInf => FNegInf
  end.

Definition fabs (a : PyFloat) : PyFloat :=
  match a with
  | FFin x => FFin (Qabs x)
  | FNegInf => FPosInf
  | other => other
  end.

(** [a > b]: every comparison with NaN is false. *)
Definition fgt (a b : PyFloat) : bool :=
  match a, b with
  | FNaN, _ | _, FNaN => false
  | FFin x, FFin y => negb (Qle_bool x y)
  | FPosInf, FPosInf => false
  | FPosInf, _ => true
  | FNegInf, _ => false
  | FFin _, FNegInf => true
  | FFin _, FPosInf => false
  end.

(** [a <= b]. *)
Definition fle (a b : PyFloat) : bool :=
  match a, b with
  | FNaN, _ | _, FNaN => false
  | FFin x, FFin y => Qle_bool x y
  | FNegInf, _ => true
  | _, FPosInf => true
  | FPosInf, _ => false
  | FFin _, FNegInf => false
  end.

Definition np_isnan (a : PyFloat) : bool :=
  match a with FNaN => true | _ => false end.

Definition np_isinf (a : PyFloat) : bool :=
  match a with FPosInf | FNegInf => true | _ => false end.

(** The default tolerance [1e-10]. *)
Definition default_tolerance : PyFloat := FFin (1 # 10000000000).

(** ** SymPy expressions *)

Set Warnings "-register-all".

Inductive Const := CPi | CE | CI | COo | CNegOo | CZoo | CNaN.

Definition const_eqb (a b : Const) : bool :=
  match a, b with
  | CPi, CPi | CE, CE | CI, CI | COo, COo | CNegOo, CNegOo
  | CZoo, CZoo | CNaN, CNaN => true
  | _, _ => false
  end.

Inductive Expr :=
| ESym (name : string)
| EInt (z : Z)
| EFloat (q : Q)
| EConst (c : Const)
| EAdd (args : list Expr)
| EMul (args : list Expr)
| EPow (b e : Expr)
| EFun (name : string) (args : list Expr)
| EOr (args : list Expr).

(** SymPy's [==]: structural equality of expression trees. *)
Fixpoint expr_eqb (a b : Expr) {struct a} : bool :=
  let fix list_eqb (l1 l2 : list Expr) : bool :=
    match l1, l2 with
    | [], [] => true
    | x :: xs, y :: ys => expr_eqb x y && list_eqb xs ys
    | _, _ => false
    end in
  match a, b with
  | ESym n, ESym m => String.eqb n m
  | EInt x, EInt y => Z.eqb x y
  | EFloat x, EFloat y => Z.eqb (Qnum x) (Qnum y) && Pos.eqb (Qden x) (Qden y)
  | EConst c, EConst d => const_eqb c d
  | EAdd l1, EAdd l2 => list_eqb l1 l2
  | EMul l1, EMul l2 => list_eqb l1 l2
  | EPow b1 e1, EPow b2 e2 => expr_eqb b1 b2 && expr_eqb e1 e2
  | EFun f l1, EFun g l2 => String.eqb f g && list_eqb l1 l2
  | EOr l1, EOr l2 => list_eqb l1 l2
  | _, _ => false
  end.

Definition expr_zero : Expr := EInt 0.

(** Membership in a list of symbols, as a Python set test. *)
Fixpoint mem_expr (x : Expr) (l : list Expr) : bool :=
  match l with
  | [] => false
  | y :: ys => expr_eqb x y || mem_expr x ys
  end.

Definition add_unique (acc : list Expr) (x : Expr) : list Expr :=
  if mem_expr x acc then acc else acc ++ [x].

(** [expr.atoms(sp.Symbol)]: every symbol leaf, bound variables of
    [Integral], [Lambda], [Limit], ... included. *)
Fixpoint symbol_atoms (e : Expr) : list Expr :=
  match e with
  | ESym n => [ESym n]
  | EInt _ | EFloat _ | EConst _ => []
  | EAdd l | EMul l | EFun _ l | EOr l =>
      fold_left add_unique (flat_map symbol_atoms l) []
  | EPow b x => fold_left add_unique (symbol_atoms b ++ symbol_atoms x) []
  end.

(** [expr.atoms(sp.Function)]: the applied functions, by name. *)
Fixpoint function_atoms (e : Expr) : list string :=
  match e with
  | ESym _ | EInt _ | EFloat _ | EConst _ => []
  | EAdd l | EMul l | EOr l => flat_map function_atoms l
  | EPow b x => function_atoms b ++ function_atoms x
  | EFun f l => f :: flat_map function_atoms l
  end.

(** ** Python strings *)

Fixpoint is_prefix (p s : string) : bool :=
  match p, s with
  | EmptyString, _ => true
  | String a p', String b s' => Ascii.eqb a b && is_prefix p' s'
  | String _ _, EmptyString => false
  end.

(** [p in s] for Python strings. *)
Fixpoint str_contains (s p : string) : bool :=
  is_prefix p s ||
  match s with
  | EmptyString => false
  | String _ s' => str_contains s' p
  end.

Definition is_letter_ (c : ascii) : bool :=
  let n := nat_of_ascii c in
  (Nat.leb 97 n && Nat.leb n 122) || (Nat.leb 65 n && Nat.leb n 90)
  || Ascii.eqb c "_"%char.

Definition is_word (c : ascii) : bool :=
  let n := nat_of_ascii c in
  is_letter_ c || (Nat.leb 48 n && Nat.leb n 57).

Definition newline : ascii := ascii_of_nat 10.

(** [[a-zA-Z0-9_]*$] after the first character; Python's [$] also
    matches just before a final newline. *)
Fixpoint word_tail_to_end (s : string) : bool :=
  match s with
  | EmptyString => true
  | String c EmptyString => is_word c || Ascii.eqb c newline
  | String c r => is_word c && word_tail_to_end r
  end.

(** [SAFE_SYMBOL_PATTERN.match(name)] with
    [SAFE_SYMBOL_PATTERN = re.compile(r'^[a-zA-Z_][a-zA-Z0-9_]*$')]. *)
Definition SAFE_SYMBOL_PATTERN_match (s : string) : bool :=
  match s with
  | EmptyString => false
  | String c r => is_letter_ c && word_tail_to_end r
  end.

Definition SAFE_FUNCTIONS : list string :=
  [ "Add"; "Mul"; "Pow"; "Rational"; "Integer"; "Float";
    "sin"; "cos"; "tan"; "cot"; "sec"; "csc";
    "asin"; "acos"; "atan"; "acot"; "asec"; "acsc";
    "sinh"; "cosh"; "tanh"; "coth"; "sech"; "csch";
    "asinh"; "acosh"; "atanh"; "acoth"; "asech"; "acsch";
    "exp"; "log"; "ln"; "sqrt"; "abs"; "sign";
    "factorial"; "gamma"; "beta";
    "diff"; "integrate"; "limit"; "Derivative"; "Integral"; "Limit";
    "erf"; "erfc"; "erfi"; "erfinv"; "erfcinv";
    "besselj"; "bessely"; "besseli"; "besselk";
    "airyai"; "airyaiprime"; "airybi"; "airybiprime";
    "pi"; "E"; "I"; "oo"; "zoo"; "nan";
    "And"; "Or"; "Not"; "Xor"; "Nand"; "Nor";
    "Equivalent"; "Implies"; "ITE";
    "Eq"; "Ne"; "Lt"; "Le"; "Gt"; "Ge";
    "Symbol"; "Wild"; "WildFunction";
    "Function"; "Lambda"; "Piecewise";
    "Min"; "Max"; "re"; "im"; "conjugate";
    "floor"; "ceiling"; "frac" ].

Definition str_mem (x : string) (l : list string) : bool :=
  existsb (String.eqb x) l.

(** ** Python syntax and objects seen by [parse_expr] *)

Inductive BinOp := OpAdd | OpSub | OpMul | OpDiv | OpPow | OpMatMul.

Inductive PyAst :=
| PName (n : string)
| PStr (s : string)
| PInt (z : Z)
| PCall (f : PyAst) (args : list PyAst)
| PBin (op : BinOp) (a b : PyAst)
| PNeg (a : PyAst).

(** Values that evaluating an expression text can produce. *)
Inductive PyObj :=
| OExpr (e : Expr)
| OStr (s : string)
| OModule (name : string)
| OFile (path : string)
| OBuiltin (name : string)
| OSymFn (name : string).

Definition type_name (o : PyObj) : string :=
  match o with
  | OExpr _ => "Expr"
  | OStr _ => "str"
  | OModule _ => "module"
  | OFile _ => "_io.TextIOWrapper"
  | OBuiltin _ => "builtin_function_or_method"
  | OSymFn _ => "FunctionClass"
  end.

(** The builtin functions [parse_expr] copies into its global namespace
    (every [types.BuiltinFunctionType] of [builtins], [max] and [min]
    being rebound to SymPy's [Max] and [Min]). *)
Definition python_builtins : list string :=
  [ "abs"; "all"; "any"; "ascii"; "bin"; "callable"; "chr"; "compile";
    "delattr"; "dir"; "divmod"; "eval"; "exec"; "format"; "getattr";
    "globals"; "hasattr"; "hash"; "hex"; "id"; "input"; "isinstance";
    "issubclass"; "iter"; "len"; "locals"; "next"; "oct"; "ord"; "pow";
    "print"; "repr"; "round"; "setattr"; "sorted"; "sum"; "vars"; "open";
    "__import__"; "__build_class__"; "breakpoint" ].

(** The other names of [builtins] (classes, the [site] helpers [exit] and
    [quit], ...).  [parse_expr] does not copy them, but [eval] adds
    [__builtins__] to the namespace it is given, so code run by the builtin
    [eval] still finds them; calling one goes through [call_builtin]. *)
Definition python_builtin_objects : list string :=
  [ "bool"; "memoryview"; "bytearray"; "bytes"; "classmethod"; "complex";
    "dict"; "enumerate"; "filter"; "float"; "frozenset"; "property"; "int";
    "list"; "map"; "object"; "range"; "reversed"; "set"; "slice";
    "staticmethod"; "str"; "super"; "tuple"; "type"; "zip";
    "BaseException"; "BaseExceptionGroup"; "Exception"; "GeneratorExit";
    "KeyboardInterrupt"; "SystemExit"; "ArithmeticError"; "AssertionError";
    "AttributeError"; "ImportError"; "LookupError"; "NameError"; "OSError";
    "RuntimeError"; "StopIteration"; "SyntaxError"; "TypeError";
    "ValueError"; "ZeroDivisionError"; "FileNotFoundError";
    "NotImplementedError"; "quit"; "exit"; "copyright"; "credits";
    "license"; "help" ].

(** ** The libraries: SymPy, pint and numpy's random generator *)

Record SymPyLib := {
  (** tokenizer and SAFE_TRANSFORMATIONS of [parse_expr] (convert_xor,
      implicit multiplication, auto_number, ...); auto_symbol is applied by
      [py_eval] below *)
  parse_transformed : string -> Py PyAst;
  (** Python's own parser, used by the builtin [eval] *)
  parse_python : string -> Py PyAst;
  (** [from sympy import *] *)
  sympy_name : string -> option PyObj;
  call_sympy : string -> list PyObj -> Py PyObj;
  call_builtin : string -> list PyObj -> Py PyObj;
  (** the file system seen by [open] and the modules [__import__] finds *)
  file_exists : string -> bool;
  module_exists : string -> bool;
  (** [a + b], [a - b], [a * b], [a / b], [a ** b] on SymPy objects *)
  binop : BinOp -> Expr -> Expr -> Py Expr;
  neg : Expr -> Py Expr;
  symbols : string -> Py Expr;
  simplify : Expr -> Py Expr;
  diff : Expr -> Expr -> Py Expr;
  integrate : Expr -> Expr -> Py Expr;
  (** [limit(e, z, z0, dir)]; [None] stands for a Python [None] *)
  limit : Expr -> Expr -> Expr -> string -> Py (option Expr);
  rational : PyFloat -> Py Expr;
  subs : Expr -> list (Expr * PyFloat) -> Py Expr;
  (** [float(e)] *)
  to_float : Expr -> Py PyFloat;
  (** [str(e)] *)
  sstr : Expr -> string;
  (** [e.free_symbols]: the symbols of [e] that are not bound (the
      variable of a definite [Integral], of a [Lambda] or of a [Limit] is
      bound) *)
  free_symbols : Expr -> list Expr;
  (** [sp.Add( *args)] *)
  add_args : list Expr -> Expr;
  continuous_domain : Expr -> Expr -> Py unit;
  (** [UREG.parse_expression(u)] (the quantity itself is not used) *)
  ureg_parse_expression : string -> Py unit;
  (** [np.random.uniform(-10, 10)] on the generator state *)
  uniform : Z -> PyFloat * Z
}.

Definition const_type_name (c : Const) : string :=
  match c with
  | CPi => "Pi" | CE => "Exp1" | CI => "ImaginaryUnit" | COo => "Infinity"
  | CNegOo => "NegativeInfinity" | CZoo => "ComplexInfinity" | CNaN => "NaN"
  end.

(** [type(e).__name__] of a SymPy object. *)
Definition expr_type_name (e : Expr) : string :=
  match e with
  | ESym _ => "Symbol" | EInt _ => "Integer" | EFloat _ => "Float"
  | EConst c => const_type_name c
  | EAdd _ => "Add" | EMul _ => "Mul" | EPow _ _ => "Pow"
  | EFun f _ => f | EOr _ => "Or"
  end.

Definition obj_type_name (o : PyObj) : string :=
  match o with OExpr e => expr_type_name e | _ => type_name o end.

Fixpoint all_exprs (l : list PyObj) : option (list Expr) :=
  match l with
  | [] => Some []
  | OExpr e :: r => match all_exprs r with Some es => Some (e :: es) | None => None end
  | _ :: _ => None
  end.

Section Calculus.

Context (L : SymPyLib).

(** ** [parse_expr] and [_safe_parse] *)

(** Name lookup in the namespace of [parse_expr]: the builtins are copied
    over the names of [from sympy import *]. *)
Definition lookup_name (n : string) : option PyObj :=
  if str_mem n python_builtins then Some (OBuiltin n)
  else if String.eqb n "max" then Some (OSymFn "Max")
  else if String.eqb n "min" then Some (OSymFn "Min")
  else sympy_name L n.

(** Python binary operators on the evaluated operands.  SymPy expressions
    have no [__matmul__]. *)
Definition py_binop (op : BinOp) (a b : PyObj) : Py PyObj :=
  match a, b, op with
  | OExpr x, OExpr y, OpMatMul =>
      raise TypeError ("unsupported operand type(s) for @: '" ++ expr_type_name x
                       ++ "' and '" ++ expr_type_name y ++ "'")
  | OExpr x, OExpr y, _ => e <- binop L op x y ;; PyOk (OExpr e)
  | OStr s1, OStr s2, OpAdd => PyOk (OStr (s1 ++ s2))
  | _, _, _ =>
      raise TypeError ("unsupported operand type(s): '" ++ obj_type_name a
                       ++ "' and '" ++ obj_type_name b ++ "'")
  end.

(** [Function(n)(args)], produced by auto_symbol for an undefined name
    that is called. *)
Definition undefined_function_call (n : string) (argv : list PyObj) : Py PyObj :=
  match all_exprs argv with
  | Some es => PyOk (OExpr (EFun n es))
  | None => call_sympy L n argv
  end.

(** Evaluation of the transformed text; [auto_symbol] turns names that are
    not defined into symbols (and undefined called names into undefined
    functions), as the auto_symbol transformation does.  The builtin
    [eval] evaluates its argument with Python's own parser, without the
    transformations. *)
Fixpoint py_eval (fuel : nat) (auto_symbol : bool) (a : PyAst) {struct fuel}
  : Py PyObj :=
  match fuel with
  | O => raise OtherError "maximum recursion depth exceeded"
  | S k =>
    let fix eval_list (l : list PyAst) : Py (list PyObj) :=
      match l with
      | [] => PyOk []
      | x :: xs => v <- py_eval k auto_symbol x ;; vs <- eval_list xs ;; PyOk (v :: vs)
      end in
    let call (fo : PyObj) (argv : list PyObj) : Py PyObj :=
      match fo, argv with
      | OBuiltin "eval", [OStr src] => t <- parse_python L src ;; py_eval k false t
      | OBuiltin "__import__", [OStr m] =>
          if module_exists L m then PyOk (OModule m)
          else raise OtherError ("No module named '" ++ m ++ "'")
      | OBuiltin "open", [OStr path] =>
          if file_exists L path then PyOk (OFile path)
          else raise FileNotFoundError
                 ("[Errno 2] No such file or directory: '" ++ path ++ "'")
      | OBuiltin b, _ => call_builtin L b argv
      | OSymFn "Symbol", [OStr s] => PyOk (OExpr (ESym s))
      | OSymFn f, _ => call_sympy L f argv
      | _, _ => raise TypeError ("'" ++ obj_type_name fo ++ "' object is not callable")
      end in
    match a with
    | PName n =>
        match lookup_name n with
        | Some o => PyOk o
        | None =>
            if auto_symbol then PyOk (OExpr (ESym n))
            else if str_mem n python_builtin_objects then PyOk (OBuiltin n)
            else raise NameError ("name '" ++ n ++ "' is not defined")
        end
    | PStr s => PyOk (OStr s)
    | PInt z => PyOk (OExpr (EInt z))
    | PCall (PName n) args =>
        match lookup_name n with
        | Some fo => argv <- eval_list args ;; call fo argv
        | None =>
            if auto_symbol then (argv <- eval_list args ;; undefined_function_call n argv)
            else if str_mem n python_builtin_objects then
              (argv <- eval_list args ;; call (OBuiltin n) argv)
            else raise NameError ("name '" ++ n ++ "' is not defined")
        end
    | PCall f args => fo <- py_eval k auto_symbol f ;; argv <- eval_list args ;; call fo argv
    | PBin op x y =>
        xo <- py_eval k auto_symbol x ;; yo <- py_eval k auto_symbol y ;; py_binop op xo yo
    | PNeg x =>
        xo <- py_eval k auto_symbol x ;;
        match xo with
        | OExpr e => r <- neg L e ;; PyOk (OExpr r)
        | _ => raise TypeError ("bad operand type for unary -: '" ++ obj_type_name xo ++ "'")
        end
    end
  end.

(** [parse_expr(expr_str, transformations=SAFE_TRANSFORMATIONS)] *)
Definition parse_expr (expr_str : string) : Py PyObj :=
  t <- parse_transformed L expr_str ;; py_eval 1000 true t.

(** [str(symbol)] *)
Definition symbol_str (e : Expr) : string :=
  match e with ESym n => n | _ => sstr L e end.

Fixpoint check_functions (fs : list string) : Py unit :=
  match fs with
  | [] => PyOk tt
  | f :: r =>
      if str_mem f SAFE_FUNCTIONS then check_functions r
      else raise ValueError ("Unsafe function '" ++ f ++ "' not in allowlist")
  end.

Fixpoint check_symbols (ss : list Expr) : Py unit :=
  match ss with
  | [] => PyOk tt
  | s :: r =>
      if SAFE_SYMBOL_PATTERN_match (symbol_str s) then check_symbols r
      else raise ValueError ("Unsafe symbol '" ++ symbol_str s ++ "' not in allowlist")
  end.

(** The body of the [try] in [_safe_parse] after [parse_expr]: the
    allowlist audit; [parsed.atoms] fails on an object that is not a SymPy
    expression. *)
Definition audit (parsed : PyObj) : Py Expr :=
  match parsed with
  | OExpr e =>
      _ <- check_functions (function_atoms e) ;;
      _ <- check_symbols (symbol_atoms e) ;;
      PyOk e
  | other =>
      raise AttributeError ("'" ++ type_name other ++ "' object has no attribute 'atoms'")
  end.

(** The [except Exception as e] clause of [_safe_parse]. *)
Definition safe_parse_handler (expr_str : string) (e : PyExc) : Py Expr :=
  if str_contains expr_str "eval" || str_contains expr_str "__import__"
     || str_contains expr_str "open" then
    raise ValueError ("Unsafe function detected in expression '" ++ expr_str ++ "'")
  else if str_contains expr_str "@" || str_contains expr_str "."
          || str_contains expr_str "-" then
    raise ValueError ("Unsafe symbol pattern in expression '" ++ expr_str ++ "'")
  else
    raise ValueError ("Failed to parse expression '" ++ expr_str ++ "': " ++ exc_msg e).

Definition _safe_parse (expr_str : string) : Py Expr :=
  py_try (parsed <- parse_expr expr_str ;; audit parsed) is_Exception
    (safe_parse_handler expr_str).

(** ** Results *)

Inductive PyVal :=
| VBool (b : bool)
| VStr (s : string)
| VNone
| VInt (z : Z)
| VFloat (f : PyFloat)
| VFloatList (l : list PyFloat).

(** [{'equivalent' (or 'valid'): outcome, 'details': {...}}] *)
Record Result := mkResult { outcome : bool; details : list (string * PyVal) }.

Fixpoint lookup (k : string) (d : list (string * PyVal)) : option PyVal :=
  match d with
  | [] => None
  | (k', v) :: r => if String.eqb k k' then Some v else lookup k r
  end.

(** ** Test-point sampler *)

Fixpoint draw (seed : Z) (n : nat) : list PyFloat * Z :=
  match n with
  | O => ([], seed)
  | S k =>
      let (p, s1) := uniform L seed in
      let (ps, s2) := draw s1 k in (p :: ps, s2)
  end.

(** [_generate_test_points(expr, var, num_points)]: the continuous domain is
    computed and not used. *)
Definition _generate_test_points (expr var : Expr) (num_points : Z) (seed : Z)
  : Py (list PyFloat) :=
  _ <- continuous_domain L expr var ;;
  PyOk (fst (draw seed (Z.to_nat num_points))).

Fixpoint draw_point (syms : list Expr) (seed : Z) : list (Expr * PyFloat) * Z :=
  match syms with
  | [] => ([], seed)
  | x :: xs =>
      let (v, s1) := uniform L seed in
      let (d, s2) := draw_point xs s1 in ((x, v) :: d, s2)
  end.

Fixpoint draw_points (syms : list Expr) (seed : Z) (n : nat)
  : list (list (Expr * PyFloat)) * Z :=
  match n with
  | O => ([], seed)
  | S k =>
      let (d, s1) := draw_point syms seed in
      let (ds, s2) := draw_points syms s1 k in (d :: ds, s2)
  end.

Definition _generate_test_points_multi (symbols_list : list Expr) (num_points : Z)
  (seed : Z) : list (list (Expr * PyFloat)) :=
  fst (draw_points symbols_list seed (Z.to_nat num_points)).

(** ** The numeric fallback loop

    [for point in test_points: try: a = float(..); b = float(..);
     if abs(a - b) > tolerance: numerical_equiv = False; break
     except (ValueError, TypeError): continue] *)
Fixpoint numeric_match {P : Type} (ev : P -> Py (PyFloat * PyFloat))
  (tolerance : PyFloat) (pts : list P) : Py bool :=
  match pts with
  | [] => PyOk true
  | p :: ps =>
      match ev p with
      | PyOk (a, b) =>
          if fgt (fabs (fsub a b)) tolerance then PyOk false
          else numeric_match ev tolerance ps
      | PyErr e =>
          if catches_Value_Type (exc_class e) then numeric_match ev tolerance ps
          else PyErr e
      end
  end.

(** [float(c.subs(var, point))], [float(e.subs(var, point))] *)
Definition eval_single (c e var : Expr) (point : PyFloat) : Py (PyFloat * PyFloat) :=
  computed_val <- (s <- subs L c [(var, point)] ;; to_float L s) ;;
  expected_val <- (s <- subs L e [(var, point)] ;; to_float L s) ;;
  PyOk (computed_val, expected_val).

(** [float(l.subs(point_dict))], [float(r.subs(point_dict))] *)
Definition eval_multi (l r : Expr) (point_dict : list (Expr * PyFloat))
  : Py (PyFloat * PyFloat) :=
  lhs_val <- (s <- subs L l point_dict ;; to_float L s) ;;
  rhs_val <- (s <- subs L r point_dict ;; to_float L s) ;;
  PyOk (lhs_val, rhs_val).

(** ** derivative_equivalent *)

Definition derivative_body (expr var expected : string) (tolerance : PyFloat)
  (seed : Z) : Py Result :=
  expr_sympy <- _safe_parse expr ;;
  expected_sympy <- _safe_parse expected ;;
  var_sympy <- symbols L var ;;
  computed_derivative <- diff L expr_sympy var_sympy ;;
  computed_simplified <- simplify L computed_derivative ;;
  expected_simplified <- simplify L expected_sympy ;;
  difference <- binop L OpSub computed_simplified expected_simplified ;;
  difference_simplified <- simplify L difference ;;
  let symbolic_equiv := expr_eqb difference_simplified expr_zero in
  if negb symbolic_equiv then
    test_points <- _generate_test_points expr_sympy var_sympy 10 seed ;;
    numerical_equiv <- numeric_match
      (eval_single computed_simplified expected_simplified var_sympy)
      tolerance test_points ;;
    PyOk (mkResult numerical_equiv
      [("computed", VStr (sstr L computed_simplified));
       ("expected", VStr (sstr L expected_simplified));
       ("symbolic_match", VBool false);
       ("numerical_match", VBool numerical_equiv)])
  else
    PyOk (mkResult true
      [("computed", VStr (sstr L computed_simplified));
       ("expected", VStr (sstr L expected_simplified));
       ("symbolic_match", VBool true);
       ("numerical_match", VBool true)]).

Definition derivative_equivalent (expr var expected : string) (tolerance : PyFloat)
  (seed : Z) : Py Result :=
  py_try (derivative_body expr var expected tolerance seed) is_Exception
    (fun e => PyOk (mkResult false
       [("error", VStr (exc_msg e)); ("computed", VNone); ("expected", VNone)])).

(** ** integral_equivalent *)

Definition _remove_constants (expr var : Expr) : Expr :=
  match expr with
  | EAdd args =>
      let terms_with_var :=
        filter (fun term => mem_expr var (free_symbols L term)) args in
      match terms_with_var with
      | [] => EInt 0
      | _ :: _ => add_args L terms_with_var
      end
  | _ => if mem_expr var (free_symbols L expr) then expr else EInt 0
  end.

Definition integral_body (expr var expected : string) (constant_free : bool)
  (tolerance : PyFloat) (seed : Z) : Py Result :=
  expr_sympy <- _safe_parse expr ;;
  expected_sympy <- _safe_parse expected ;;
  var_sympy <- symbols L var ;;
  computed_integral <- integrate L expr_sympy var_sympy ;;
  let computed_clean :=
    if constant_free then _remove_constants computed_integral var_sympy
    else computed_integral in
  let expected_clean :=
    if constant_free then _remove_constants expected_sympy var_sympy
    else expected_sympy in
  computed_simplified <- simplify L computed_clean ;;
  expected_simplified <- simplify L expected_clean ;;
  difference <- binop L OpSub computed_simplified expected_simplified ;;
  difference_simplified <- simplify L difference ;;
  let symbolic_equiv := expr_eqb difference_simplified expr_zero in
  if negb symbolic_equiv then
    test_points <- _generate_test_points expr_sympy var_sympy 10 seed ;;
    numerical_equiv <- numeric_match
      (eval_single computed_simplified expected_simplified var_sympy)
      tolerance test_points ;;
    PyOk (mkResult numerical_equiv
      [("computed", VStr (sstr L computed_integral));
       ("expected", VStr (sstr L expected_sympy));
       ("computed_clean", VStr (sstr L computed_simplified));
       ("expected_clean", VStr (sstr L expected_simplified));
       ("symbolic_match", VBool false);
       ("numerical_match", VBool numerical_equiv);
       ("constant_free", VBool constant_free)])
  else
    PyOk (mkResult true
      [("computed", VStr (sstr L computed_integral));
       ("expected", VStr (sstr L expected_sympy));
       ("computed_clean", VStr (sstr L computed_simplified));
       ("expected_clean", VStr (sstr L expected_simplified));
       ("symbolic_match", VBool true);
       ("numerical_match", VBool true);
       ("constant_free", VBool constant_free)]).

Definition integral_equivalent (expr var expected : string) (constant_free : bool)
  (tolerance : PyFloat) (seed : Z) : Py Result :=
  py_try (integral_body expr var expected constant_free tolerance seed) is_Exception
    (fun e => PyOk (mkResult false
       [("error", VStr (exc_msg e)); ("computed", VNone); ("expected", VNone)])).

(** ** limit_equal *)

Definition opt_expr_eqb (a b : option Expr) : bool :=
  match a, b with
  | None, None => true
  | Some x, Some y => expr_eqb x y
  | _, _ => false
  end.

Definition limit_not_exists (msg : string) : Result :=
  mkResult false
    [("computed", VNone); ("limit_exists", VBool false); ("error", VStr msg)].

(** The finiteness check closing [limit_equal]. *)
Definition limit_finite_check (computed_limit : Expr) (direction : string) : Result :=
  if expr_eqb computed_limit (EConst COo) || expr_eqb computed_limit (EConst CNegOo)
  then
    mkResult false
      [("computed", VStr (sstr L computed_limit)); ("limit_exists", VBool true);
       ("finite", VBool false)]
  else
    mkResult true
      [("computed", VStr (sstr L computed_limit)); ("limit_exists", VBool true);
       ("finite", VBool true); ("direction", VStr direction)].

(** [to] is a [str] ([inl]) or a [float] ([inr]).  [limit(e, z, z0)]
    without [dir] is SymPy's default [dir='+']. *)
Definition limit_body (expr var : string) (to : string + PyFloat)
  (direction : string) (tolerance : PyFloat) : Py Result :=
  expr_sympy <- _safe_parse expr ;;
  var_sympy <- symbols L var ;;
  to_sympy <- match to with
              | inl s => _safe_parse s
              | inr f => rational L f
              end ;;
  computed_limit <-
    (if String.eqb direction "left" then limit L expr_sympy var_sympy to_sympy "-"
     else if String.eqb direction "right" then limit L expr_sympy var_sympy to_sympy "+"
     else limit L expr_sympy var_sympy to_sympy "+") ;;
  match computed_limit with
  | None => PyOk (limit_not_exists "Limit does not exist")
  | Some c =>
      if expr_eqb c (EConst CNaN) then PyOk (limit_not_exists "Limit does not exist")
      else if String.eqb direction "both" then
        left_limit <- limit L expr_sympy var_sympy to_sympy "-" ;;
        right_limit <- limit L expr_sympy var_sympy to_sympy "+" ;;
        if negb (opt_expr_eqb left_limit right_limit) then
          PyOk (limit_not_exists "Left and right limits differ")
        else PyOk (limit_finite_check c direction)
      else PyOk (limit_finite_check c direction)
  end.

Definition limit_equal (expr var : string) (to : string + PyFloat)
  (direction : string) (tolerance : PyFloat) : Py Result :=
  py_try (limit_body expr var to direction tolerance) is_Exception
    (fun e => PyOk (mkResult false [("error", VStr (exc_msg e)); ("computed", VNone)])).

(** ** algebra_equiv *)

(** [a | b] on SymPy objects.  [Integer] has a bitwise [__or__]; symbols and
    boolean expressions build [Or], whose arguments must all be boolean;
    other expressions (numbers, sums, powers, ...) have no [__or__]. *)
Definition is_boolean (e : Expr) : bool :=
  match e with ESym _ | EOr _ => true | _ => false end.

Definition py_or (a b : Expr) : Py Expr :=
  match a, b with
  | EInt x, EInt y => PyOk (EInt (Z.lor x y))
  | _, _ =>
      if is_boolean a || is_boolean b then
        if is_boolean a && is_boolean b then PyOk (EOr [a; b])
        else raise TypeError "expecting bool or Boolean"
      else
        raise TypeError ("unsupported operand type(s) for |: '" ++ expr_type_name a
                         ++ "' and '" ++ expr_type_name b ++ "'")
  end.

(** The comparison of two constants: [try: abs(float(l) - float(r)) <= tol
    except (ValueError, TypeError): False]. *)
Definition compare_constants (l r : Expr) (tolerance : PyFloat) : Py bool :=
  match (lhs_val <- to_float L l ;; rhs_val <- to_float L r ;; PyOk (lhs_val, rhs_val)) with
  | PyOk (a, b) => PyOk (fle (fabs (fsub a b)) tolerance)
  | PyErr e => if catches_Value_Type (exc_class e) then PyOk false else PyErr e
  end.

Definition algebra_body (lhs rhs : string) (tolerance : PyFloat) (seed : Z)
  : Py Result :=
  lhs_sympy <- _safe_parse lhs ;;
  rhs_sympy <- _safe_parse rhs ;;
  lhs_simplified <- simplify L lhs_sympy ;;
  rhs_simplified <- simplify L rhs_sympy ;;
  difference <- binop L OpSub lhs_simplified rhs_simplified ;;
  difference_simplified <- simplify L difference ;;
  let symbolic_equiv := expr_eqb difference_simplified expr_zero in
  if negb symbolic_equiv then
    union <- py_or lhs_sympy rhs_sympy ;;
    let all_symbols := symbol_atoms union in
    numerical_equiv <-
      match all_symbols with
      | _ :: _ =>
          let test_points := _generate_test_points_multi all_symbols 10 seed in
          numeric_match (eval_multi lhs_simplified rhs_simplified) tolerance test_points
      | [] => compare_constants lhs_simplified rhs_simplified tolerance
      end ;;
    PyOk (mkResult numerical_equiv
      [("lhs", VStr (sstr L lhs_simplified)); ("rhs", VStr (sstr L rhs_simplified));
       ("symbolic_match", VBool false); ("numerical_match", VBool numerical_equiv)])
  else
    PyOk (mkResult true
      [("lhs", VStr (sstr L lhs_simplified)); ("rhs", VStr (sstr L rhs_simplified));
       ("symbolic_match", VBool true); ("numerical_match", VBool true)]).

Definition algebra_equiv (lhs rhs : string) (tolerance : PyFloat) (seed : Z)
  : Py Result :=
  py_try (algebra_body lhs rhs tolerance seed) is_Exception
    (fun e => PyOk (mkResult false
       [("error", VStr (exc_msg e)); ("lhs", VNone); ("rhs", VNone)])).

(** ** dimensional_check *)

Definition unit_patterns : list string :=
  ["m"; "s"; "kg"; "N"; "J"; "W"; "A"; "V"; "F"; "H"; "T"; "C"; "mol"].

Definition has_unit_pattern (expr_str : string) : bool :=
  existsb (fun pattern => str_contains expr_str pattern) unit_patterns.

Definition dimensional_body (expr expected_unit : string) : Py Result :=
  expr_sympy <- _safe_parse expr ;;
  _ <- ureg_parse_expression L expected_unit ;;
  let expr_str := sstr L expr_sympy in
  let has_units := has_unit_pattern expr_str in
  PyOk (mkResult has_units
    [("expression", VStr expr_str); ("expected_unit", VStr expected_unit);
     ("has_units", VBool has_units);
     ("note", VStr "Simplified unit checking - full implementation would require proper unit analysis")]).

Definition dimensional_check (expr expected_unit : string) : Py Result :=
  py_try (dimensional_body expr expected_unit) is_Exception
    (fun e => PyOk (mkResult false
       [("error", VStr (exc_msg e)); ("expression", VNone);
        ("expected_unit", VStr expected_unit)])).

(** ** numeric_probe *)

Fixpoint probe_loop (e : Expr) (pts : list (list (Expr * PyFloat)))
  (valid_count error_count : Z) (results : list PyFloat)
  : Py (Z * Z * list PyFloat) :=
  match pts with
  | [] => PyOk (valid_count, error_count, results)
  | point_dict :: ps =>
      match (s <- subs L e point_dict ;; to_float L s) with
      | PyOk result =>
          if negb (np_isnan result || np_isinf result) then
            probe_loop e ps (valid_count + 1) error_count (results ++ [result])
          else probe_loop e ps valid_count (error_count + 1) results
      | PyErr ex =>
          if catches_Value_Type_ZeroDiv (exc_class ex) then
            probe_loop e ps valid_count (error_count + 1) results
          else PyErr ex
      end
  end.

Definition numeric_probe_body (expr : string) (num_points : Z) (seed : Z)
  : Py Result :=
  expr_sympy <- _safe_parse expr ;;
  let symbols_list := symbol_atoms expr_sympy in
  match symbols_list with
  | [] =>
      match to_float L expr_sympy with
      | PyOk result =>
          PyOk (mkResult true
            [("constant_value", VFloat result); ("points_tested", VInt 0);
             ("evaluation_errors", VInt 0)])
      | PyErr e =>
          if catches_Value_Type (exc_class e) then
            PyOk (mkResult false
              [("error", VStr "Failed to evaluate constant expression");
               ("points_tested", VInt 0); ("evaluation_errors", VInt 1)])
          else PyErr e
      end
  | _ :: _ =>
      let test_points := _generate_test_points_multi symbols_list num_points seed in
      counts <- probe_loop expr_sympy test_points 0 0 [] ;;
      let '(valid_count, error_count, results) := counts in
      PyOk (mkResult (Z.ltb 0 valid_count)
        [("points_tested", VInt (Z.of_nat (length test_points)));
         ("valid_evaluations", VInt valid_count);
         ("evaluation_errors", VInt error_count);
         ("sample_results", VFloatList (firstn 5 results))])
  end.

Definition numeric_probe (expr : string) (num_points : Z) (seed : Z) : Py Result :=
  py_try (numeric_probe_body expr num_points seed) is_Exception
    (fun e => PyOk (mkResult false
       [("error", VStr (exc_msg e)); ("points_tested", VInt 0);
        ("evaluation_errors", VInt 1)])).

End Calculus.

(** ** A reference instance of the library interface

    [Ref] implements the operations of [SymPyLib] for the small set of
    expressions used by the witnesses and counterexamples below, agreeing
    with SymPy on them: the parser reads the listed texts, [simplify] leaves
    these already simplified forms unchanged, [limit] of an expression free
    of the variable is the expression itself (as [Limit.doit] returns it),
    [float] follows [Expr.__float__] ([float(oo)] is [inf], [float(nan)] is
    [nan], [float(zoo)] raises [TypeError]). *)

Fixpoint assoc_str {A} (k : string) (l : list (string * A)) : option A :=
  match l with
  | [] => None
  | (k', v) :: r => if String.eqb k k' then Some v else assoc_str k r
  end.

Definition ref_texts : list (string * PyAst) :=
  [ ("x", PName "x"); ("y", PName "y"); ("m", PName "m");
    ("0", PInt 0); ("3", PInt 3); ("5", PInt 5);
    ("pi", PName "pi"); ("oo", PName "oo"); ("zoo", PName "zoo");
    ("nan", PName "nan");
    ("1/x", PBin OpDiv (PInt 1) (PName "x"));
    ("x^2", PBin OpPow (PName "x") (PInt 2));
    ("2*x", PBin OpMul (PInt 2) (PName "x"));
    ("x*m", PBin OpMul (PName "x") (PName "m"));
    ("eval('x')", PCall (PName "eval") [PStr "x"]);
    ("__import__('os')", PCall (PName "__import__") [PStr "os"]);
    ("open('f')", PCall (PName "open") [PStr "f"]);
    ("x@y", PBin OpMatMul (PName "x") (PName "y"));
    ("exec('raise SystemExit')", PCall (PName "exec") [PStr "raise SystemExit"]);
    ("eval('exit()')", PCall (PName "eval") [PStr "exit()"]) ].

Definition ref_parse_transformed (s : string) : Py PyAst :=
  match assoc_str s ref_texts with
  | Some t => PyOk t
  | None => raise SyntaxError "invalid syntax"
  end.

Definition ref_parse_python (s : string) : Py PyAst :=
  if String.eqb s "x" then PyOk (PName "x")
  else if String.eqb s "exit()" then PyOk (PCall (PName "exit") [])
  else raise SyntaxError "invalid syntax".

(** [exec('raise SystemExit')] raises [SystemExit()] (whose [str] is empty);
    [exit()] and [quit()] raise [SystemExit(None)]. *)
Definition ref_call_builtin (b : string) (args : list PyObj) : Py PyObj :=
  match b, args with
  | "exec", [OStr "raise SystemExit"] => raise SystemExit EmptyString
  | "exit", [] | "quit", [] => raise SystemExit "None"
  | _, _ => raise OtherError (b ++ " is not covered by the reference instance")
  end.

Definition ref_sympy_name (n : string) : option PyObj :=
  if String.eqb n "pi" then Some (OExpr (EConst CPi))
  else if String.eqb n "E" then Some (OExpr (EConst CE))
  else if String.eqb n "I" then Some (OExpr (EConst CI))
  else if String.eqb n "oo" then Some (OExpr (EConst COo))
  else if String.eqb n "zoo" then Some (OExpr (EConst CZoo))
  else if String.eqb n "nan" then Some (OExpr (EConst CNaN))
  else if str_mem n SAFE_FUNCTIONS then Some (OSymFn n)
  else None.

Definition ref_call_sympy (f : string) (args : list PyObj) : Py PyObj :=
  match all_exprs args with
  | Some es => PyOk (OExpr (EFun f es))
  | None => raise TypeError "expected a SymPy expression"
  end.

Definition ref_binop (op : BinOp) (a b : Expr) : Py Expr :=
  match op, a, b with
  | OpMatMul, _, _ => raise TypeError "unsupported operand type(s) for @"
  | _, EConst CNaN, _ | _, _, EConst CNaN => PyOk (EConst CNaN)
  | OpAdd, EInt x, EInt y => PyOk (EInt (x + y))
  | OpSub, EInt x, EInt y => PyOk (EInt (x - y))
  | OpMul, EInt x, EInt y => PyOk (EInt (x * y))
  | OpAdd, _, _ => PyOk (EAdd [a; b])
  | OpSub, _, _ =>
      if expr_eqb a b then PyOk (EInt 0) else PyOk (EAdd [a; EMul [EInt (-1); b]])
  | OpMul, _, _ => PyOk (EMul [a; b])
  | OpDiv, EInt 1, _ => PyOk (EPow b (EInt (-1)))
  | OpDiv, _, _ => PyOk (EMul [a; EPow b (EInt (-1))])
  | OpPow, _, _ => PyOk (EPow a b)
  end.

Definition ref_diff (e v : Expr) : Py Expr :=
  match e with
  | ESym _ => PyOk (if expr_eqb e v then EInt 1 else EInt 0)
  | EInt _ | EFloat _ => PyOk (EInt 0)
  | EPow b (EInt n) =>
      if expr_eqb b v then PyOk (EMul [EInt n; EPow b (EInt (n - 1))])
      else raise NotImplementedError "derivative not covered by the reference instance"
  | _ => raise NotImplementedError "derivative not covered by the reference instance"
  end.

Definition ref_limit (e v t : Expr) (dir : string) : Py (option Expr) :=
  if negb (mem_expr v (symbol_atoms e)) then PyOk (Some e)
  else if expr_eqb e v then PyOk (Some t)
  else if expr_eqb e (EPow v (EInt (-1))) && expr_eqb t (EInt 0) then
    PyOk (Some (if String.eqb dir "+" then EConst COo else EConst CNegOo))
  else if expr_eqb e (EPow v (EInt 2)) && expr_eqb t (EInt 0) then PyOk (Some (EInt 0))
  else raise NotImplementedError "limit not covered by the reference instance".

Fixpoint ref_subs (e : Expr) (pts : list (Expr * PyFloat)) : Expr :=
  match e with
  | ESym _ =>
      match find (fun p => expr_eqb (fst p) e) pts with
      | Some (_, FFin q) => EFloat q
      | Some (_, FPosInf) => EConst COo
      | Some (_, FNegInf) => EConst CNegOo
      | Some (_, FNaN) => EConst CNaN
      | None => e
      end
  | EInt _ | EFloat _ | EConst _ => e
  | EAdd l => EAdd (map (fun a => ref_subs a pts) l)
  | EMul l => EMul (map (fun a => ref_subs a pts) l)
  | EPow b x => EPow (ref_subs b pts) (ref_subs x pts)
  | EFun f l => EFun f (map (fun a => ref_subs a pts) l)
  | EOr l => EOr (map (fun a => ref_subs a pts) l)
  end.

(** [float(e)] on numbers, and on sums, products and integer powers of
    finite numbers. *)
Fixpoint ref_to_float (e : Expr) : Py PyFloat :=
  let fix fold (op : Q -> Q -> Q) (acc : Q) (l : list Expr) : Py PyFloat :=
    match l with
    | [] => PyOk (FFin acc)
    | a :: r =>
        match ref_to_float a with
        | PyOk (FFin q) => fold op (op acc q) r
        | PyOk _ => raise TypeError "Cannot convert expression to float"
        | PyErr ex => PyErr ex
        end
    end in
  match e with
  | EInt z => PyOk (FFin (inject_Z z))
  | EFloat q => PyOk (FFin q)
  | EConst CPi => PyOk (FFin (3141592653589793 # 1000000000000000))
  | EConst CE => PyOk (FFin (2718281828459045 # 1000000000000000))
  | EConst COo => PyOk FPosInf
  | EConst CNegOo => PyOk FNegInf
  | EConst CNaN => PyOk FNaN
  | EConst CZoo | EConst CI => raise TypeError "Cannot convert complex to float"
  | EAdd l => fold Qplus 0 l
  | EMul l => fold Qmult 1 l
  | EPow b (EInt n) =>
      match ref_to_float b with
      | PyOk (FFin q) =>
          if Qeq_bool q 0 && Z.ltb n 0 then raise ZeroDivisionError "division by zero"
          else PyOk (FFin (Qpower q n))
      | PyOk _ => raise TypeError "Cannot convert expression to float"
      | PyErr ex => PyErr ex
      end
  | _ => raise TypeError "Cannot convert expression to float"
  end.

Definition digit_char (d : Z) : ascii := ascii_of_nat (48 + Z.to_nat d).

Fixpoint digits_of (fuel : nat) (n : Z) (acc : string) : string :=
  match fuel with
  | O => acc
  | S k =>
      let acc' := String (digit_char (n mod 10)) acc in
      if Z.ltb n 10 then acc' else digits_of k (n / 10) acc'
  end.

Definition string_of_Z (z : Z) : string :=
  if Z.ltb z 0 then String "-"%char (digits_of 40 (- z) EmptyString)
  else digits_of 40 z EmptyString.

Fixpoint ref_sstr (e : Expr) : string :=
  let fix join (sep : string) (l : list Expr) : string :=
    match l with
    | [] => EmptyString
    | [a] => ref_sstr a
    | a :: r => ref_sstr a ++ sep ++ join sep r
    end in
  match e with
  | ESym n => n
  | EInt z => string_of_Z z
  | EFloat q => string_of_Z (Qnum q) ++ "/" ++ string_of_Z (Zpos (Qden q))
  | EConst c =>
      match c with
      | CPi => "pi" | CE => "E" | CI => "I" | COo => "oo" | CNegOo => "-oo"
      | CZoo => "zoo" | CNaN => "nan"
      end
  | EAdd l => join " + " l
  | EMul l => join "*" l
  | EPow b x => ref_sstr b ++ "**" ++ ref_sstr x
  | EFun f l => f ++ "(" ++ join ", " l ++ ")"
  | EOr l => join " | " l
  end.

Definition ref_units : list string := ["m"; "s"; "kg"; "m/s"; "kg*m/s^2"; "N"; "J"].

Definition Ref : SymPyLib := {|
  parse_transformed := ref_parse_transformed;
  parse_python := ref_parse_python;
  sympy_name := ref_sympy_name;
  call_sympy := ref_call_sympy;
  call_builtin := ref_call_builtin;
  file_exists := fun _ => false;
  module_exists := fun m => String.eqb m "os";
  binop := ref_binop;
  neg := fun e => ref_binop OpMul (EInt (-1)) e;
  symbols := fun s => match s with
                      | EmptyString => raise ValueError "no symbols given"
                      | _ => PyOk (ESym s)
                      end;
  simplify := fun e => PyOk e;
  diff := ref_diff;
  integrate := fun e v =>
    match e with
    | EInt c => PyOk (EMul [EInt c; v])
    | _ => raise NotImplementedError "integral not covered by the reference instance"
    end;
  limit := ref_limit;
  rational := fun f => match f with
                       | FFin q => PyOk (EFloat q)
                       | _ => raise OtherError "cannot convert float infinity or NaN"
                       end;
  subs := fun e pts => PyOk (ref_subs e pts);
  to_float := ref_to_float;
  sstr := ref_sstr;
  (* the texts of [ref_texts] build no binders *)
  free_symbols := symbol_atoms;
  add_args := fun l => match l with [a] => a | _ => EAdd l end;
  continuous_domain := fun _ _ => PyOk tt;
  ureg_parse_expression := fun u =>
    if str_mem u ref_units then PyOk tt
    else raise OtherError ("'" ++ u ++ "' is not defined in the unit registry");
  uniform := fun seed => (FFin (inject_Z ((seed mod 21) - 10)%Z), (seed + 1)%Z)
|}.

(** ** A second reference instance

    [RefX] is [Ref] reading a few more texts, with SymPy's flattening of
    nested sums ([(a + b) + c] is [Add(a, b, c)]). *)

Definition refx_texts : list (string * PyAst) :=
  [ ("x + y", PBin OpAdd (PName "x") (PName "y"));
    ("5 + x + y", PBin OpAdd (PBin OpAdd (PInt 5) (PName "x")) (PName "y"));
    ("sin(x)", PCall (PName "sin") [PName "x"]) ].

Definition refx_parse_transformed (s : string) : Py PyAst :=
  match assoc_str s refx_texts with
  | Some t => PyOk t
  | None => ref_parse_transformed s
  end.

Definition refx_binop (op : BinOp) (a b : Expr) : Py Expr :=
  match op, a, b with
  | OpAdd, EAdd l, EConst CNaN => PyOk (EConst CNaN)
  | OpAdd, EAdd l, _ => PyOk (EAdd (l ++ [b]))
  | _, _, _ => ref_binop op a b
  end.

Definition RefX : SymPyLib := {|
  parse_transformed := refx_parse_transformed;
  parse_python := parse_python Ref;
  sympy_name := sympy_name Ref;
  call_sympy := call_sympy Ref;
  call_builtin := call_builtin Ref;
  file_exists := file_exists Ref;
  module_exists := module_exists Ref;
  binop := refx_binop;
  neg := neg Ref;
  symbols := symbols Ref;
  simplify := simplify Ref;
  diff := diff Ref;
  integrate := integrate Ref;
  limit := limit Ref;
  rational := rational Ref;
  subs := subs Ref;
  to_float := to_float Ref;
  sstr := sstr Ref;
  free_symbols := free_symbols Ref;
  add_args := add_args Ref;
  continuous_domain := continuous_domain Ref;
  ureg_parse_expression := ureg_parse_expression Ref;
  uniform := uniform Ref
|}.

(** * The HTTP service (py/verifier/src/verifier/app.py)

    Each endpoint calls one engine on the fields of its request and returns
    the result; [except Exception as e] turns an exception into
    [HTTPException(status_code=400, detail=...)].  The state of numpy's
    generator is the [seed] passed to the engines that sample. *)

Inductive Response :=
| Respond (result : Result)
| HTTPException (status_code : Z) (detail : string).

Record DerivativeRequest := {
  dr_expr : string; dr_var : string; dr_expected : string; dr_tolerance : PyFloat }.

Record IntegralRequest := {
  ir_expr : string; ir_var : string; ir_expected : string;
  ir_constant_free : bool; ir_tolerance : PyFloat }.

(** [to: Union[str, float]] *)
Record LimitRequest := {
  lr_expr : string; lr_var : string; lr_to : string + PyFloat;
  lr_direction : string; lr_tolerance : PyFloat }.

Record AlgebraRequest := { ar_lhs : string; ar_rhs : string; ar_tolerance : PyFloat }.

Record DimensionalRequest := { dmr_expr : string; dmr_expected_unit : string }.

Record NumericProbeRequest := { npr_expr : string; npr_num_points : Z }.

Definition verify_derivative (L : SymPyLib) (request : DerivativeRequest) (seed : Z)
  : Py Response :=
  py_try
    (result <- derivative_equivalent L (dr_expr request) (dr_var request)
                 (dr_expected request) (dr_tolerance request) seed ;;
     PyOk (Respond result))
    is_Exception
    (fun e => PyOk (HTTPException 400 ("Derivative verification failed: " ++ exc_msg e))).

Definition verify_integral (L : SymPyLib) (request : IntegralRequest) (seed : Z)
  : Py Response :=
  py_try
    (result <- integral_equivalent L (ir_expr request) (ir_var request)
                 (ir_expected request) (ir_constant_free request)
                 (ir_tolerance request) seed ;;
     PyOk (Respond result))
    is_Exception
    (fun e => PyOk (HTTPException 400 ("Integral verification failed: " ++ exc_msg e))).

Definition verify_limit (L : SymPyLib) (request : LimitRequest) : Py Response :=
  py_try
    (result <- limit_equal L (lr_expr request) (lr_var request) (lr_to request)
                 (lr_direction request) (lr_tolerance request) ;;
     PyOk (Respond result))
    is_Exception
    (fun e => PyOk (HTTPException 400 ("Limit verification failed: " ++ exc_msg e))).

Definition verify_algebra (L : SymPyLib) (request : AlgebraRequest) (seed : Z)
  : Py Response :=
  py_try
    (result <- algebra_equiv L (ar_lhs request) (ar_rhs request)
                 (ar_tolerance request) seed ;;
     PyOk (Respond result))
    is_Exception
    (fun e => PyOk (HTTPException 400 ("Algebra verification failed: " ++ exc_msg e))).

Definition verify_dimensional (L : SymPyLib) (request : DimensionalRequest)
  : Py Response :=
  py_try
    (result <- dimensional_check L (dmr_expr request) (dmr_expected_unit request) ;;
     PyOk (Respond result))
    is_Exception
    (fun e => PyOk (HTTPException 400 ("Dimensional verification failed: " ++ exc_msg e))).

Definition verify_numeric_probe (L : SymPyLib) (request : NumericProbeRequest) (seed : Z)
  : Py Response :=
  py_try
    (result <- numeric_probe L (npr_expr request) (npr_num_points request) seed ;;
     PyOk (Respond result))
    is_Exception
    (fun e => PyOk (HTTPException 400 ("Numeric probe failed: " ++ exc_msg e))).

(** * Proofs *)

(** ** Induction on expressions and structural equality *)

Definition Expr_ind' (P : Expr -> Prop)
  (HSym : forall n, P (ESym n)) (HInt : forall z, P (EInt z))
  (HFloat : forall q, P (EFloat q)) (HConst : forall c, P (EConst c))
  (HAdd : forall l, Forall P l -> P (EAdd l))
  (HMul : forall l, Forall P l -> P (EMul l))
  (HPow : forall b x, P b -> P x -> P (EPow b x))
  (HFun : forall f l, Forall P l -> P (EFun f l))
  (HOr : forall l, Forall P l -> P (EOr l)) : forall e, P e :=
  fix go (e : Expr) : P e :=
    match e with
    | ESym n => HSym n
    | EInt z => HInt z
    | EFloat q => HFloat q
    | EConst c => HConst c
    | EAdd l => HAdd l ((fix gl (l : list Expr) : Forall P l :=
                          match l with
                          | [] => Forall_nil P
                          | x :: r => Forall_cons x (go x) (gl r)
                          end) l)
    | EMul l => HMul l ((fix gl (l : list Expr) : Forall P l :=
                          match l with
                          | [] => Forall_nil P
                          | x :: r => Forall_cons x (go x) (gl r)
                          end) l)
    | EPow b x => HPow b x (go b) (go x)
    | EFun f l => HFun f l ((fix gl (l : list Expr) : Forall P l :=
                          match l with
                          | [] => Forall_nil P
                          | x :: r => Forall_cons x (go x) (gl r)
                          end) l)
    | EOr l => HOr l ((fix gl (l : list Expr) : Forall P l :=
                          match l with
                          | [] => Forall_nil P
                          | x :: r => Forall_cons x (go x) (gl r)
                          end) l)
    end.

(** ** Reasoning about the error monad *)

Definition py_all {A} (P : A -> Prop) (m : Py A) : Prop :=
  match m with PyOk a => P a | PyErr _ => True end.

Definition nonempty (s : string) : Prop := s <> EmptyString.

(** An exception that [except Exception] catches carries a non-empty
    message. *)
Definition exc_ok (e : PyExc) : Prop :=
  is_Exception (exc_class e) = true -> nonempty (exc_msg e).

(** Every [Exception] a computation raises carries a non-empty message. *)
Definition msg_ok {A} (m : Py A) : Prop :=
  forall e, m = PyErr e -> exc_ok e.

(** [py_ok P m]: [m] returns a value satisfying [P], or raises an
    exception that is not an [Exception] or has a non-empty message. *)
Definition py_ok {A} (P : A -> Prop) (m : Py A) : Prop :=
  match m with PyOk a => P a | PyErr e => exc_ok e end.

(** ** The properties stated about the engines *)

(** A result carrying an ['error'] entry reports a failure, with a non-empty
    message. *)
Definition error_result_ok (r : Result) : Prop :=
  forall s, lookup "error" (details r) = Some (VStr s) -> outcome r = false /\ nonempty s.

(** An engine call returns a result whose error entry, if any, is well
    formed, or raises an exception that is not an [Exception]: no
    [Exception] escapes. *)
Definition engine_ok (m : Py Result) : Prop :=
  match m with
  | PyOk r => error_result_ok r
  | PyErr e => is_Exception (exc_class e) = false
  end.

(** The SymPy and pint operations raise exceptions whose [str] is not
    empty. *)
Record lib_messages_nonempty (L : SymPyLib) : Prop := {
  msgs_symbols : forall s, msg_ok (symbols L s);
  msgs_simplify : forall e, msg_ok (simplify L e);
  msgs_diff : forall e v, msg_ok (diff L e v);
  msgs_integrate : forall e v, msg_ok (integrate L e v);
  msgs_limit : forall e v t d, msg_ok (limit L e v t d);
  msgs_rational : forall f, msg_ok (rational L f);
  msgs_binop : forall op a b, msg_ok (binop L op a b);
  msgs_subs : forall e p, msg_ok (subs L e p);
  msgs_to_float : forall e, msg_ok (to_float L e);
  msgs_continuous_domain : forall e v, msg_ok (continuous_domain L e v);
  msgs_ureg : forall u, msg_ok (ureg_parse_expression L u)
}.

(** [equivalent == symbolic_match or numerical_match] on a result without
    error. *)
Definition match_invariant (r : Result) : Prop :=
  lookup "error" (details r) = None ->
  exists s n,
    lookup "symbolic_match" (details r) = Some (VBool s) /\
    lookup "numerical_match" (details r) = Some (VBool n) /\
    outcome r = s || n /\ (s = true -> n = true /\ outcome r = true).

(** The verdict of the numeric fallback loop: no point that evaluates has
    [abs(a - b) > tolerance]. *)
Definition fallback_verdict {P : Type} (ev : P -> Py (PyFloat * PyFloat))
  (tolerance : PyFloat) (pts : list P) : bool :=
  forallb (fun p => match ev p with
                    | PyOk (a, b) => negb (fgt (fabs (fsub a b)) tolerance)
                    | PyErr _ => true
                    end) pts.

(** Every point raises an exception the loop skips. *)
Definition all_points_skipped {P : Type} (ev : P -> Py (PyFloat * PyFloat))
  (pts : list P) : Prop :=
  forall p, In p pts ->
    exists ex, ev p = PyErr ex /\ catches_Value_Type (exc_class ex) = true.

(** The derivative engine reaches its numeric fallback: every step succeeds
    and the simplified difference is not syntactically zero. *)
Definition derivative_inconclusive (L : SymPyLib) (expr var expected : string)
  (e v cs es : Expr) : Prop :=
  exists x d delta delta',
    _safe_parse L expr = PyOk e /\ _safe_parse L expected = PyOk x /\
    symbols L var = PyOk v /\ diff L e v = PyOk d /\
    simplify L d = PyOk cs /\ simplify L x = PyOk es /\
    binop L OpSub cs es = PyOk delta /\ simplify L delta = PyOk delta' /\
    expr_eqb delta' expr_zero = false.

Definition integral_inconclusive (L : SymPyLib) (expr var expected : string)
  (constant_free : bool) (e v cs es : Expr) : Prop :=
  exists x ci delta delta',
    _safe_parse L expr = PyOk e /\ _safe_parse L expected = PyOk x /\
    symbols L var = PyOk v /\ integrate L e v = PyOk ci /\
    simplify L (if constant_free then _remove_constants L ci v else ci) = PyOk cs /\
    simplify L (if constant_free then _remove_constants L x v else x) = PyOk es /\
    binop L OpSub cs es = PyOk delta /\ simplify L delta = PyOk delta' /\
    expr_eqb delta' expr_zero = false.

(** The algebra engine reaches its fallback, [lhs | rhs] succeeds and its
    symbols are [syms]. *)
Definition algebra_inconclusive (L : SymPyLib) (lhs rhs : string)
  (ls rs : Expr) (syms : list Expr) : Prop :=
  exists l r delta delta' u,
    _safe_parse L lhs = PyOk l /\ _safe_parse L rhs = PyOk r /\
    simplify L l = PyOk ls /\ simplify L r = PyOk rs /\
    binop L OpSub ls rs = PyOk delta /\ simplify L delta = PyOk delta' /\
    expr_eqb delta' expr_zero = false /\
    py_or l r = PyOk u /\ symbol_atoms u = syms.

(** One point of the numeric loop lets it go on: it evaluates with
    [abs(a - b) <= tolerance] not refuted, or raises an exception the loop
    skips. *)
Definition point_passes {P : Type} (ev : P -> Py (PyFloat * PyFloat))
  (tolerance : PyFloat) (p : P) : bool :=
  match ev p with
  | PyOk (a, b) => negb (fgt (fabs (fsub a b)) tolerance)
  | PyErr ex => catches_Value_Type (exc_class ex)
  end.

(** A value [np.random.uniform(-10, 10)] can return. *)
Definition in_sample_range (f : PyFloat) : Prop :=
  exists q, f = FFin q /\ (-10 <= q <= 10)%Q.

Definition py_map {A B} (f : A -> B) (m : Py A) : Py B := a <- m ;; PyOk (f a).

Definition py_outcome (m : Py Result) : Py bool := py_map outcome m.

(** The result with its ['direction'] entry set to [d]. *)
Definition relabel_direction (d : string) (r : Result) : Result :=
  mkResult (outcome r)
    (map (fun kv => if String.eqb (fst kv) "direction" then ("direction", VStr d) else kv)
       (details r)).

(** Every character of [w] is in [[a-zA-Z0-9_]]. *)
Definition all_word (w : string) : bool := forallb is_word (list_ascii_of_string w).

(** A float that is neither NaN nor infinite. *)
Definition finite_float (f : PyFloat) : Prop := np_isnan f = false /\ np_isinf f = false.

Lemma const_eqb_eq (c d : Const) : const_eqb c d = true <-> c = d.
Proof. destruct c, d; simpl; split; congruence. Qed.

Lemma list_eqb_eq (l1 : list Expr) :
  Forall (fun a => forall b, expr_eqb a b = true <-> a = b) l1 ->
  forall l2,
  (fix list_eqb (l1 l2 : list Expr) : bool :=
     match l1, l2 with
     | [], [] => true
     | x :: xs, y :: ys => expr_eqb x y && list_eqb xs ys
     | _, _ => false
     end) l1 l2 = true <-> l1 = l2.
Proof.
  induction 1 as [|x xs Hx Hxs IH]; intros [|y ys]; simpl; try (split; congruence).
  rewrite andb_true_iff, Hx, IH. split.
  - intros [-> ->]; reflexivity.
  - intros H; injection H; auto.
Qed.

Lemma expr_eqb_eq (a b : Expr) : expr_eqb a b = true <-> a = b.
Proof.
  revert b.
  induction a as [n|z|q|c|l Hl|l Hl|b1 x1 Hb Hx|f l Hl|l Hl] using Expr_ind';
    intros [m|z'|q'|c'|l'|l'|b2 x2|g l'|l']; simpl; try (split; congruence).
  - rewrite String.eqb_eq; split; congruence.
  - rewrite Z.eqb_eq; split; congruence.
  - destruct q as [qn qd], q' as [qn' qd']; simpl.
    rewrite andb_true_iff, Z.eqb_eq, Pos.eqb_eq; split.
    + intros [-> ->]; reflexivity.
    + intros H; injection H; auto.
  - rewrite const_eqb_eq; split; congruence.
  - rewrite (list_eqb_eq l Hl l'); split; congruence.
  - rewrite (list_eqb_eq l Hl l'); split; congruence.
  - rewrite andb_true_iff, Hb, Hx; split.
    + intros [-> ->]; reflexivity.
    + intros H; injection H; auto.
  - rewrite andb_true_iff, String.eqb_eq, (list_eqb_eq l Hl l'); split.
    + intros [-> ->]; reflexivity.
    + intros H; injection H; auto.
  - rewrite (list_eqb_eq l Hl l'); split; congruence.
Qed.

Lemma mem_expr_In (x : Expr) (l : list Expr) : mem_expr x l = true <-> In x l.
Proof.
  induction l as [|y ys IH]; simpl.
  - split; [discriminate | contradiction].
  - rewrite orb_true_iff, IH, expr_eqb_eq. split; intros [H|H]; auto.
Qed.

Lemma py_all_bind {A B} (P : B -> Prop) (m : Py A) (k : A -> Py B) :
  (forall a, m = PyOk a -> py_all P (k a)) -> py_all P (py_bind m k).
Proof. destruct m; simpl; auto. Qed.

Lemma py_try_ok {A} (m : Py A) c h r :
  py_try m c h = PyOk r ->
  m = PyOk r \/ (exists e, m = PyErr e /\ c (exc_class e) = true /\ h e = PyOk r).
Proof.
  destruct m as [a|e]; simpl.
  - intros H; left; exact H.
  - destruct (c (exc_class e)) eqn:Hc; [|discriminate]. intros H; right; eauto.
Qed.

Ltac py_steps :=
  repeat (apply py_all_bind; intros ? ?); cbv zeta.

Lemma py_ok_bind {A B} (P : B -> Prop) (m : Py A) (k : A -> Py B) :
  msg_ok m -> (forall a, m = PyOk a -> py_ok P (k a)) -> py_ok P (py_bind m k).
Proof. destruct m as [a|e]; simpl; intros Hm Hk; [apply Hk; reflexivity | apply (Hm e eq_refl)]. Qed.

Lemma py_ok_msg {A} (m : Py A) : py_ok (fun _ => True) m -> msg_ok m.
Proof. intros H e ->. exact H. Qed.

Lemma nonempty_app_l (s t : string) : nonempty s -> nonempty (s ++ t).
Proof. destruct s; simpl; [contradiction | discriminate]. Qed.

Lemma raise_ok {A} (P : A -> Prop) c (a : ascii) (s : string) :
  py_ok P (raise c (String a s)).
Proof. simpl; intros _; discriminate. Qed.

Lemma msg_ok_bind {A B} (m : Py A) (k : A -> Py B) :
  msg_ok m -> (forall a, msg_ok (k a)) -> msg_ok (py_bind m k).
Proof.
  destruct m as [a|e]; simpl; intros Hm Hk; [apply Hk|].
  intros e' H; injection H as <-; exact (Hm e eq_refl).
Qed.

Lemma msg_ok_ret {A} (a : A) : msg_ok (PyOk a).
Proof. intros e H; discriminate H. Qed.

Lemma msg_ok_raise {A} c (a : ascii) (s : string) : @msg_ok A (raise c (String a s)).
Proof. intros e H _; injection H as <-; simpl; discriminate. Qed.

(** A [try ... except Exception] whose handler returns: what escapes is not
    an [Exception], and is the body's own exception. *)
Lemma py_try_Exception_err {A} (m : Py A) (h : PyExc -> A) ex :
  py_try m is_Exception (fun e => PyOk (h e)) = PyErr ex ->
  m = PyErr ex /\ is_Exception (exc_class ex) = false.
Proof.
  destruct m as [a|e]; cbn [py_try]; [intros H; discriminate H|].
  destruct (is_Exception (exc_class e)) eqn:E; intros H; [discriminate H|].
  injection H as <-; split; [reflexivity | exact E].
Qed.

Lemma lookup_cons_eq (k : string) (v : PyVal) d : lookup k ((k, v) :: d) = Some v.
Proof. simpl; rewrite String.eqb_refl; reflexivity. Qed.

Ltac msg_step :=
  first [ apply msg_ok_bind | apply msg_ok_ret | apply msg_ok_raise
        | apply msgs_symbols; assumption | apply msgs_simplify; assumption
        | apply msgs_diff; assumption | apply msgs_integrate; assumption
        | apply msgs_limit; assumption | apply msgs_rational; assumption
        | apply msgs_binop; assumption | apply msgs_subs; assumption
        | apply msgs_to_float; assumption
        | apply msgs_continuous_domain; assumption
        | apply msgs_ureg; assumption ].

Ltac msg_auto := repeat (intros; msg_step).

Section Messages.

Context (L : SymPyLib) (HL : lib_messages_nonempty L).

(** [_safe_parse] re-raises every failure as a [ValueError] whose message
    starts with a fixed text. *)
Lemma safe_parse_msgs (s : string) : msg_ok (_safe_parse L s).
Proof.
  unfold _safe_parse. intros e.
  destruct (parsed <- parse_expr L s ;; audit L parsed) as [p|ex]; cbn [py_try];
    [discriminate|].
  destruct (is_Exception (exc_class ex)) eqn:Hex;
    [|intros H; injection H as <-; unfold exc_ok; congruence].
  unfold safe_parse_handler.
  destruct (_ || _ || _); [intros H _; injection H as <-; simpl; discriminate|].
  destruct (_ || _ || _); intros H _; injection H as <-; simpl; discriminate.
Qed.

Lemma gen_points_msgs e v n seed : msg_ok (_generate_test_points L e v n seed).
Proof. unfold _generate_test_points; msg_auto. Qed.

Lemma numeric_match_msgs {P} (ev : P -> Py (PyFloat * PyFloat)) tol pts :
  (forall p, msg_ok (ev p)) -> msg_ok (numeric_match ev tol pts).
Proof.
  intros Hev. induction pts as [|p ps IH]; simpl; [apply msg_ok_ret|].
  destruct (ev p) as [[a b]|ex] eqn:E.
  - destruct (fgt _ _); [apply msg_ok_ret | exact IH].
  - destruct (catches_Value_Type _); [exact IH|].
    intros e' H; injection H as <-; exact (Hev p ex E).
Qed.

Lemma eval_single_msgs c e v p : msg_ok (eval_single L c e v p).
Proof. unfold eval_single; msg_auto. Qed.

Lemma eval_multi_msgs l r p : msg_ok (eval_multi L l r p).
Proof. unfold eval_multi; msg_auto. Qed.

Lemma py_or_msgs a b : msg_ok (py_or a b).
Proof.
  unfold py_or.
  destruct a, b; try apply msg_ok_ret;
    repeat match goal with |- context [if ?c then _ else _] => destruct c end;
    first [apply msg_ok_ret | apply msg_ok_raise].
Qed.

Lemma compare_constants_msgs l r tol : msg_ok (compare_constants L l r tol).
Proof.
  unfold compare_constants.
  destruct (lhs_val <- to_float L l ;; rhs_val <- to_float L r ;; PyOk (lhs_val, rhs_val))
    as [[a b]|ex] eqn:E; [apply msg_ok_ret|].
  destruct (catches_Value_Type _); [apply msg_ok_ret|].
  intros e' H; injection H as <-.
  assert (M : msg_ok (lhs_val <- to_float L l ;; rhs_val <- to_float L r ;;
                      PyOk (lhs_val, rhs_val))) by msg_auto.
  exact (M ex E).
Qed.

Lemma probe_loop_msgs e pts vc ec res : msg_ok (probe_loop L e pts vc ec res).
Proof.
  revert vc ec res; induction pts as [|p ps IH]; intros vc ec res; simpl;
    [apply msg_ok_ret|].
  destruct (s <- subs L e p ;; to_float L s) as [x|ex] eqn:E.
  - destruct (negb _); apply IH.
  - destruct (catches_Value_Type_ZeroDiv _); [apply IH|].
    intros e' H; injection H as <-.
    assert (M : msg_ok (s <- subs L e p ;; to_float L s)) by msg_auto.
    exact (M ex E).
Qed.

End Messages.


Ltac msg_all :=
  repeat (intros;
    first [ msg_step | apply safe_parse_msgs | apply gen_points_msgs
          | apply numeric_match_msgs | apply eval_single_msgs; assumption
          | apply eval_multi_msgs; assumption | apply py_or_msgs
          | apply compare_constants_msgs; assumption
          | apply probe_loop_msgs; assumption ]).

Ltac ok_steps :=
  repeat first [ apply py_ok_bind; [solve [msg_all] | intros ? ?]
               | progress cbv zeta ].

Ltac leaf_ok :=
  cbn [py_ok]; unfold error_result_ok; cbn [details outcome];
  intros ? Hs; simpl in Hs;
  first [ discriminate Hs | injection Hs as <-; split; [reflexivity | discriminate] ].

Lemma try_engine_ok (B : Py Result) (rest : list (string * PyVal)) :
  py_ok error_result_ok B ->
  engine_ok (py_try B is_Exception
               (fun e => PyOk (mkResult false (("error", VStr (exc_msg e)) :: rest)))).
Proof.
  destruct B as [r|e]; simpl; intros H; [exact H|].
  destruct (is_Exception (exc_class e)) eqn:Hex; [|exact Hex].
  intros s Hs. simpl in Hs. injection Hs as <-.
  split; [reflexivity | exact (H Hex)].
Qed.

Section Engines.

Context (L : SymPyLib) (HL : lib_messages_nonempty L).

Lemma derivative_body_ok expr var expected tol seed :
  py_ok error_result_ok (derivative_body L expr var expected tol seed).
Proof. unfold derivative_body. ok_steps. destruct (negb _); ok_steps; leaf_ok. Qed.

Lemma integral_body_ok expr var expected cf tol seed :
  py_ok error_result_ok (integral_body L expr var expected cf tol seed).
Proof. unfold integral_body. ok_steps. destruct (negb _); ok_steps; leaf_ok. Qed.

Lemma limit_body_ok expr var to direction tol :
  py_ok error_result_ok (limit_body L expr var to direction tol).
Proof.
  unfold limit_body.
  destruct to; destruct (String.eqb direction "left"); destruct (String.eqb direction "right");
    ok_steps;
    repeat match goal with
           | |- py_ok _ (match ?o with Some _ => _ | None => _ end) => destruct o
           | |- py_ok _ (if ?b then _ else _) => destruct b
           end;
    ok_steps;
    repeat match goal with
           | |- py_ok _ (if ?b then _ else _) => destruct b
           end;
    try leaf_ok; unfold limit_finite_check;
    destruct (_ || _); leaf_ok.
Qed.

Lemma algebra_body_ok lhs rhs tol seed :
  py_ok error_result_ok (algebra_body L lhs rhs tol seed).
Proof.
  unfold algebra_body. ok_steps. destruct (negb _); [|leaf_ok].
  ok_steps. apply py_ok_bind.
  - destruct (symbol_atoms _); msg_all.
  - intros ? ?. leaf_ok.
Qed.

Lemma dimensional_body_ok expr u :
  py_ok error_result_ok (dimensional_body L expr u).
Proof. unfold dimensional_body. ok_steps. leaf_ok. Qed.

Lemma numeric_probe_body_ok expr n seed :
  py_ok error_result_ok (numeric_probe_body L expr n seed).
Proof.
  unfold numeric_probe_body. ok_steps.
  destruct (symbol_atoms _).
  - destruct (to_float L _) as [f|ex] eqn:E; [leaf_ok|].
    destruct (catches_Value_Type _); [leaf_ok|].
    exact (msgs_to_float L HL _ ex E).
  - ok_steps. destruct a0 as [[vc ec] res]. leaf_ok.
Qed.

End Engines.

Ltac msg_lit :=
  let e := fresh "e" in
  let Hm := fresh "Hm" in
  intros e Hm;
  repeat match type of Hm with
         | context [match ?x with _ => _ end] => destruct x
         | context [if ?b then _ else _] => destruct b
         end;
  try discriminate Hm; injection Hm as <-; simpl; discriminate.

Lemma ref_to_float_msgs (x : Expr) : msg_ok (ref_to_float x).
Proof.
  induction x as [n|z|q|c|l Hl|l Hl|b y Hb Hy|f l Hl|l Hl] using Expr_ind';
    try solve [simpl; msg_lit].
  - simpl. generalize 0%Q. induction Hl as [|a r Ha Hr IH]; intros acc; [msg_lit|].
    intros e Hm. destruct (ref_to_float a) as [[]|ex] eqn:E;
      try (injection Hm as <-; simpl; discriminate).
    + exact (IH _ e Hm).
    + injection Hm as <-. exact (Ha ex eq_refl).
  - simpl. generalize 1%Q. induction Hl as [|a r Ha Hr IH]; intros acc; [msg_lit|].
    intros e Hm. destruct (ref_to_float a) as [[]|ex] eqn:E;
      try (injection Hm as <-; simpl; discriminate).
    + exact (IH _ e Hm).
    + injection Hm as <-. exact (Ha ex eq_refl).
  - simpl. destruct y; try msg_lit.
    intros e Hm. destruct (ref_to_float b) as [[]|ex] eqn:E;
      try (injection Hm as <-; simpl; discriminate).
    + destruct (_ && _); [injection Hm as <-; simpl; discriminate | discriminate].
    + injection Hm as <-. exact (Hb ex eq_refl).
Qed.

Lemma Ref_messages_nonempty : lib_messages_nonempty Ref.
Proof.
  constructor; simpl.
  - intros s; msg_lit.
  - intros; apply msg_ok_ret.
  - intros e v; unfold ref_diff; msg_lit.
  - intros e v; msg_lit.
  - intros e v t d; unfold ref_limit; msg_lit.
  - intros f; msg_lit.
  - intros op a b; unfold ref_binop; msg_lit.
  - intros; apply msg_ok_ret.
  - exact ref_to_float_msgs.
  - intros; apply msg_ok_ret.
  - intros u; msg_lit.
Qed.

Lemma try_result_cases (B : Py Result) (rest : list (string * PyVal)) (r : Result) :
  py_try B is_Exception
    (fun e => PyOk (mkResult false (("error", VStr (exc_msg e)) :: rest))) = PyOk r ->
  lookup "error" (details r) = None -> B = PyOk r.
Proof.
  destruct B as [a|e]; simpl; [auto|].
  destruct (is_Exception (exc_class e)); intros H; [|discriminate H].
  injection H as <-. simpl; discriminate.
Qed.

Lemma numeric_match_verdict {P} (ev : P -> Py (PyFloat * PyFloat)) tol pts b :
  numeric_match ev tol pts = PyOk b -> b = fallback_verdict ev tol pts.
Proof.
  induction pts as [|p ps IH]; simpl; [congruence|].
  destruct (ev p) as [[a c]|ex].
  - destruct (fgt _ _); simpl; [congruence | exact IH].
  - destruct (catches_Value_Type _); [exact IH | discriminate].
Qed.

Lemma numeric_match_all_skipped {P} (ev : P -> Py (PyFloat * PyFloat)) tol pts :
  all_points_skipped ev pts -> numeric_match ev tol pts = PyOk true.
Proof.
  induction pts as [|p ps IH]; intros H; simpl; [reflexivity|].
  destruct (H p (or_introl eq_refl)) as [ex [-> Hc]]. rewrite Hc.
  apply IH. intros q Hq. apply H. right; exact Hq.
Qed.

Lemma fallback_verdict_spec {P} (ev : P -> Py (PyFloat * PyFloat)) tol pts :
  fallback_verdict ev tol pts = true <->
  (forall p a b, In p pts -> ev p = PyOk (a, b) -> fgt (fabs (fsub a b)) tol = false).
Proof.
  unfold fallback_verdict. rewrite forallb_forall. split.
  - intros H p a b Hin Hev. specialize (H p Hin). rewrite Hev in H.
    destruct (fgt _ _); [discriminate | reflexivity].
  - intros H p Hin. destruct (ev p) as [[a b]|ex] eqn:E; [|reflexivity].
    rewrite (H p a b Hin E). reflexivity.
Qed.

Ltac inv_leaf :=
  cbn [py_all]; unfold match_invariant; intros _; simpl;
  do 2 eexists; split; [reflexivity|]; split; [reflexivity|];
  split; [reflexivity|]; intros Hs; first [discriminate Hs | split; reflexivity].

Section Invariant.

Context (L : SymPyLib).

Lemma derivative_body_inv expr var expected tol seed :
  py_all match_invariant (derivative_body L expr var expected tol seed).
Proof. unfold derivative_body. py_steps. destruct (negb _); py_steps; inv_leaf. Qed.

Lemma integral_body_inv expr var expected cf tol seed :
  py_all match_invariant (integral_body L expr var expected cf tol seed).
Proof. unfold integral_body. py_steps. destruct (negb _); py_steps; inv_leaf. Qed.

Lemma algebra_body_inv lhs rhs tol seed :
  py_all match_invariant (algebra_body L lhs rhs tol seed).
Proof. unfold algebra_body. py_steps. destruct (negb _); py_steps; inv_leaf. Qed.

End Invariant.

Lemma all_points_skipped_of_check {P} (ev : P -> Py (PyFloat * PyFloat)) pts :
  forallb (fun p => match ev p with
                    | PyErr ex => catches_Value_Type (exc_class ex)
                    | PyOk _ => false
                    end) pts = true ->
  all_points_skipped ev pts.
Proof.
  intros H p Hp. rewrite forallb_forall in H. specialize (H p Hp).
  destruct (ev p) as [x|ex]; [discriminate|]. exists ex; split; [reflexivity | exact H].
Qed.

(** [exec('raise SystemExit')] is a call of the builtin [exec] in the
    namespace of [parse_expr]; the [SystemExit] it raises passes the
    [except Exception] of [_safe_parse]. *)
Lemma safe_parse_exec_system_exit (L : SymPyLib) :
  parse_transformed L "exec('raise SystemExit')"
    = PyOk (PCall (PName "exec") [PStr "raise SystemExit"]) ->
  call_builtin L "exec" [OStr "raise SystemExit"] = raise SystemExit EmptyString ->
  _safe_parse L "exec('raise SystemExit')" = PyErr (mkExc SystemExit EmptyString).
Proof.
  intros H1 H2. unfold _safe_parse, parse_expr. rewrite H1. cbn [py_bind].
  assert (E : py_eval L 1000 true (PCall (PName "exec") [PStr "raise SystemExit"])
              = call_builtin L "exec" [OStr "raise SystemExit"]) by reflexivity.
  rewrite E, H2. reflexivity.
Qed.

(** ** The claims *)

(** Claim C1 (the code departs from it): the text given to an engine can raise an
    exception that is not an [Exception].  [exec('raise SystemExit')]
    parses to a call of the builtin [exec], which raises [SystemExit];
    [parse_expr], [_safe_parse] and every engine catch only [Exception],
    so each of the six engines raises [SystemExit] instead of returning a
    result. *)
Theorem engines_let_system_exit_escape (L : SymPyLib) var expected cf to d rhs u n
  tol seed :
  parse_transformed L "exec('raise SystemExit')"
    = PyOk (PCall (PName "exec") [PStr "raise SystemExit"]) ->
  call_builtin L "exec" [OStr "raise SystemExit"] = raise SystemExit EmptyString ->
  derivative_equivalent L "exec('raise SystemExit')" var expected tol seed
    = PyErr (mkExc SystemExit EmptyString) /\
  integral_equivalent L "exec('raise SystemExit')" var expected cf tol seed
    = PyErr (mkExc SystemExit EmptyString) /\
  limit_equal L "exec('raise SystemExit')" var to d tol
    = PyErr (mkExc SystemExit EmptyString) /\
  algebra_equiv L "exec('raise SystemExit')" rhs tol seed
    = PyErr (mkExc SystemExit EmptyString) /\
  dimensional_check L "exec('raise SystemExit')" u
    = PyErr (mkExc SystemExit EmptyString) /\
  numeric_probe L "exec('raise SystemExit')" n seed
    = PyErr (mkExc SystemExit EmptyString).
Proof.
  intros H1 H2. pose proof (safe_parse_exec_system_exit L H1 H2) as P.
  unfold derivative_equivalent, derivative_body, integral_equivalent, integral_body,
    limit_equal, limit_body, algebra_equiv, algebra_body, dimensional_check,
    dimensional_body, numeric_probe, numeric_probe_body.
  rewrite !P. repeat split.
Qed.

(** The six engines (X17): no [Exception] escapes them.  Each returns a
    result, in which an ['error'] entry comes with outcome [false] and a
    non-empty message, or raises an exception that is not an [Exception]
    (such as [SystemExit]).  Exceptions of the body are turned into such
    results with [str(e)] as the message; the messages the module writes
    itself are non-empty, and the [Exception]s SymPy and pint raise are
    assumed to have non-empty messages ([lib_messages_nonempty]). *)
Theorem engines_contain_exceptions (L : SymPyLib) (HL : lib_messages_nonempty L) :
  (forall expr var expected tolerance seed,
     engine_ok (derivative_equivalent L expr var expected tolerance seed)) /\
  (forall expr var expected constant_free tolerance seed,
     engine_ok (integral_equivalent L expr var expected constant_free tolerance seed)) /\
  (forall expr var to direction tolerance,
     engine_ok (limit_equal L expr var to direction tolerance)) /\
  (forall lhs rhs tolerance seed, engine_ok (algebra_equiv L lhs rhs tolerance seed)) /\
  (forall expr expected_unit, engine_ok (dimensional_check L expr expected_unit)) /\
  (forall expr num_points seed, engine_ok (numeric_probe L expr num_points seed)).
Proof.
  repeat split; intros; apply try_engine_ok.
  - apply derivative_body_ok; exact HL.
  - apply integral_body_ok; exact HL.
  - apply limit_body_ok; exact HL.
  - apply algebra_body_ok; exact HL.
  - apply dimensional_body_ok; exact HL.
  - apply numeric_probe_body_ok; exact HL.
Qed.

(** Claim C10: a result of the derivative, integral or algebra engine
    without ['error'] has [equivalent == symbolic_match or
    numerical_match], and [symbolic_match] true comes with
    [numerical_match] true and [equivalent] true. *)
Theorem outcome_is_symbolic_or_numerical (L : SymPyLib) :
  (forall expr var expected tolerance seed r,
     derivative_equivalent L expr var expected tolerance seed = PyOk r ->
     match_invariant r) /\
  (forall expr var expected constant_free tolerance seed r,
     integral_equivalent L expr var expected constant_free tolerance seed = PyOk r ->
     match_invariant r) /\
  (forall lhs rhs tolerance seed r,
     algebra_equiv L lhs rhs tolerance seed = PyOk r -> match_invariant r).
Proof.
  repeat split; intros until r; intros H Herr.
  - pose proof (try_result_cases _ _ _ H Herr) as HB.
    pose proof (derivative_body_inv L expr var expected tolerance seed) as I.
    rewrite HB in I. exact (I Herr).
  - pose proof (try_result_cases _ _ _ H Herr) as HB.
    pose proof (integral_body_inv L expr var expected constant_free tolerance seed) as I.
    rewrite HB in I. exact (I Herr).
  - pose proof (try_result_cases _ _ _ H Herr) as HB.
    pose proof (algebra_body_inv L lhs rhs tolerance seed) as I.
    rewrite HB in I. exact (I Herr).
Qed.

(** The numeric fallback (X18): when symbolic equality is inconclusive
    and the engine returns without an ['error'] entry, the outcome is the
    verdict of the sampled points: no point that evaluates has
    [abs(a - b) > tolerance] (the test is [>], so a NaN difference never
    counts as a mismatch); points raising [ValueError] or [TypeError] are
    skipped.  When every one of the 10 sampled points is skipped, the
    derivative and integral engines return outcome [true].  The algebra
    engine samples only when [lhs | rhs] succeeds and has symbols. *)
Theorem numeric_fallback_verdict (L : SymPyLib) :
  (forall (P : Type) (ev : P -> Py (PyFloat * PyFloat)) tolerance pts,
     fallback_verdict ev tolerance pts = true <->
     (forall p a b, In p pts -> ev p = PyOk (a, b) ->
        fgt (fabs (fsub a b)) tolerance = false)) /\
  (forall expr var expected tolerance seed e v cs es,
     derivative_inconclusive L expr var expected e v cs es ->
     (forall r, derivative_equivalent L expr var expected tolerance seed = PyOk r ->
        lookup "error" (details r) = None ->
        outcome r = fallback_verdict (eval_single L cs es v) tolerance
                      (fst (draw L seed 10))) /\
     (continuous_domain L e v = PyOk tt ->
      all_points_skipped (eval_single L cs es v) (fst (draw L seed 10)) ->
      exists r, derivative_equivalent L expr var expected tolerance seed = PyOk r /\
        outcome r = true /\ lookup "error" (details r) = None)) /\
  (forall expr var expected constant_free tolerance seed e v cs es,
     integral_inconclusive L expr var expected constant_free e v cs es ->
     (forall r,
        integral_equivalent L expr var expected constant_free tolerance seed = PyOk r ->
        lookup "error" (details r) = None ->
        outcome r = fallback_verdict (eval_single L cs es v) tolerance
                      (fst (draw L seed 10))) /\
     (continuous_domain L e v = PyOk tt ->
      all_points_skipped (eval_single L cs es v) (fst (draw L seed 10)) ->
      exists r,
        integral_equivalent L expr var expected constant_free tolerance seed = PyOk r /\
        outcome r = true /\ lookup "error" (details r) = None)) /\
  (forall lhs rhs tolerance seed ls rs syms,
     algebra_inconclusive L lhs rhs ls rs syms -> syms <> [] ->
     forall r, algebra_equiv L lhs rhs tolerance seed = PyOk r ->
       lookup "error" (details r) = None ->
       outcome r = fallback_verdict (eval_multi L ls rs) tolerance
                     (_generate_test_points_multi L syms 10 seed)).
Proof.
  split; [intros; apply fallback_verdict_spec|].
  split; [|split].
  - intros expr var expected tolerance seed e v cs es
      (x & d & delta & delta' & H1 & H2 & H3 & H4 & H5 & H6 & H7 & H8 & H9).
    assert (HB : derivative_body L expr var expected tolerance seed =
      (pts <- _generate_test_points L e v 10 seed ;;
       n <- numeric_match (eval_single L cs es v) tolerance pts ;;
       PyOk (mkResult n
         [("computed", VStr (sstr L cs)); ("expected", VStr (sstr L es));
          ("symbolic_match", VBool false); ("numerical_match", VBool n)]))).
    { unfold derivative_body.
      rewrite H1; cbn [py_bind]. rewrite H2; cbn [py_bind]. rewrite H3; cbn [py_bind].
      rewrite H4; cbn [py_bind]. rewrite H5; cbn [py_bind]. rewrite H6; cbn [py_bind].
      rewrite H7; cbn [py_bind]. rewrite H8; cbn [py_bind]. rewrite H9. reflexivity. }
    split.
    + intros r H Herr. pose proof (try_result_cases _ _ _ H Herr) as HR.
      rewrite HB in HR. unfold _generate_test_points in HR.
      destruct (continuous_domain L e v) as [[]|ex]; cbn [py_bind] in HR; [|discriminate].
      destruct (numeric_match _ _ _) as [n|ex] eqn:En; cbn [py_bind] in HR; [|discriminate].
      injection HR as <-. exact (numeric_match_verdict _ _ _ _ En).
    + intros Hcd Hskip. unfold derivative_equivalent. rewrite HB.
      unfold _generate_test_points. rewrite Hcd; cbn [py_bind].
      rewrite (numeric_match_all_skipped _ _ _ Hskip). cbn [py_bind py_try].
      eexists; split; [reflexivity | split; reflexivity].
  - intros expr var expected constant_free tolerance seed e v cs es
      (x & ci & delta & delta' & H1 & H2 & H3 & H4 & H5 & H6 & H7 & H8 & H9).
    assert (HB : integral_body L expr var expected constant_free tolerance seed =
      (pts <- _generate_test_points L e v 10 seed ;;
       n <- numeric_match (eval_single L cs es v) tolerance pts ;;
       PyOk (mkResult n
         [("computed", VStr (sstr L ci)); ("expected", VStr (sstr L x));
          ("computed_clean", VStr (sstr L cs)); ("expected_clean", VStr (sstr L es));
          ("symbolic_match", VBool false); ("numerical_match", VBool n);
          ("constant_free", VBool constant_free)]))).
    { unfold integral_body.
      rewrite H1; cbn [py_bind]. rewrite H2; cbn [py_bind]. rewrite H3; cbn [py_bind].
      rewrite H4; cbn [py_bind]. rewrite H5; cbn [py_bind]. rewrite H6; cbn [py_bind].
      rewrite H7; cbn [py_bind]. rewrite H8; cbn [py_bind]. rewrite H9. reflexivity. }
    split.
    + intros r H Herr. pose proof (try_result_cases _ _ _ H Herr) as HR.
      rewrite HB in HR. unfold _generate_test_points in HR.
      destruct (continuous_domain L e v) as [[]|ex]; cbn [py_bind] in HR; [|discriminate].
      destruct (numeric_match _ _ _) as [n|ex] eqn:En; cbn [py_bind] in HR; [|discriminate].
      injection HR as <-. exact (numeric_match_verdict _ _ _ _ En).
    + intros Hcd Hskip. unfold integral_equivalent. rewrite HB.
      unfold _generate_test_points. rewrite Hcd; cbn [py_bind].
      rewrite (numeric_match_all_skipped _ _ _ Hskip). cbn [py_bind py_try].
      eexists; split; [reflexivity | split; reflexivity].
  - intros lhs rhs tolerance seed ls rs syms
      (l & r0 & delta & delta' & u & H1 & H2 & H3 & H4 & H5 & H6 & H7 & H8 & H9) Hne
      r H Herr.
    pose proof (try_result_cases _ _ _ H Herr) as HR.
    unfold algebra_body in HR.
    rewrite H1 in HR; cbn [py_bind] in HR. rewrite H2 in HR; cbn [py_bind] in HR.
    rewrite H3 in HR; cbn [py_bind] in HR. rewrite H4 in HR; cbn [py_bind] in HR.
    rewrite H5 in HR; cbn [py_bind] in HR. rewrite H6 in HR; cbn [py_bind] in HR.
    rewrite H7 in HR; cbn [negb] in HR. rewrite H8 in HR; cbn [py_bind] in HR.
    rewrite H9 in HR. destruct syms as [|s ss]; [contradiction Hne; reflexivity|].
    destruct (numeric_match _ _ _) as [n|ex] eqn:En; cbn [py_bind] in HR; [|discriminate].
    injection HR as <-. exact (numeric_match_verdict _ _ _ _ En).
Qed.

(** Claim C2: [_safe_parse] rejects ["eval('x')"], ["__import__('os')"],
    ["open('f')"] and ["x@y"] with a [ValueError], whatever files and
    modules exist: [parse_expr] itself raises (a [NameError] from the
    builtin [eval], a [TypeError] from [@]) or returns a module or file
    object that the audit rejects, and the handler re-raises. *)
Theorem safe_parse_rejects_unsafe (L : SymPyLib)
  (Heval : parse_transformed L "eval('x')" = PyOk (PCall (PName "eval") [PStr "x"]))
  (Himport : parse_transformed L "__import__('os')"
             = PyOk (PCall (PName "__import__") [PStr "os"]))
  (Hopen : parse_transformed L "open('f')" = PyOk (PCall (PName "open") [PStr "f"]))
  (Hmatmul : parse_transformed L "x@y" = PyOk (PBin OpMatMul (PName "x") (PName "y")))
  (Hpy : parse_python L "x" = PyOk (PName "x"))
  (Hx : sympy_name L "x" = None) :
  _safe_parse L "eval('x')"
    = raise ValueError "Unsafe function detected in expression 'eval('x')'" /\
  _safe_parse L "__import__('os')"
    = raise ValueError "Unsafe function detected in expression '__import__('os')'" /\
  _safe_parse L "open('f')"
    = raise ValueError "Unsafe function detected in expression 'open('f')'" /\
  _safe_parse L "x@y"
    = raise ValueError "Unsafe symbol pattern in expression 'x@y'".
Proof.
  unfold _safe_parse, parse_expr.
  change 1000%nat with (S (S 998)). generalize 998%nat as k; intros k.
  repeat split.
  - rewrite Heval; cbn [py_bind]. simpl. rewrite Hpy; cbn [py_bind]. simpl.
    unfold lookup_name; simpl. rewrite Hx. reflexivity.
  - rewrite Himport; cbn [py_bind]. simpl.
    destruct (module_exists L "os"); reflexivity.
  - rewrite Hopen; cbn [py_bind]. simpl.
    destruct (file_exists L "f"); reflexivity.
  - rewrite Hmatmul; cbn [py_bind]. simpl. unfold lookup_name; simpl.
    destruct (sympy_name L "x") as [[]|]; destruct (sympy_name L "y") as [[]|];
      reflexivity.
Qed.

(** Claim C5: with direction ["both"], when the left ([dir='-']) and right
    ([dir='+']) limits differ, [limit_equal] returns [equivalent=false] and
    [limit_exists=false], whatever the first limit computed (the call
    without [dir], which is SymPy's [dir='+']) was. *)
Theorem limit_both_cross_check (L : SymPyLib) expr var to tolerance e v t l r :
  _safe_parse L expr = PyOk e -> symbols L var = PyOk v ->
  match to with inl s => _safe_parse L s | inr f => rational L f end = PyOk t ->
  limit L e v t "-" = PyOk l -> limit L e v t "+" = PyOk r ->
  opt_expr_eqb l r = false ->
  exists res, limit_equal L expr var to "both" tolerance = PyOk res /\
    outcome res = false /\ lookup "limit_exists" (details res) = Some (VBool false).
Proof.
  intros H1 H2 H3 H4 H5 H6.
  unfold limit_equal, limit_body.
  rewrite H1; cbn [py_bind]. rewrite H2; cbn [py_bind]. rewrite H3; cbn [py_bind].
  change ("both" =? "left") with false. change ("both" =? "right") with false.
  change ("both" =? "both") with true.
  rewrite H5; cbn [py_bind].
  destruct r as [c|].
  - destruct (expr_eqb c (EConst CNaN)).
    + eexists; split; [reflexivity | split; reflexivity].
    + rewrite H4; cbn [py_bind]. rewrite H6.
      eexists; split; [reflexivity | split; reflexivity].
  - eexists; split; [reflexivity | split; reflexivity].
Qed.

(** Claim C6: [_remove_constants] on a sum keeps exactly the summands
    (in order, with repetitions) whose free symbols contain [var] and adds
    them with [sp.Add], giving [0] when there is none; on any other
    expression it returns the expression when it contains [var] and [0]
    otherwise. *)
Theorem remove_constants_policy (L : SymPyLib) (e var : Expr) :
  (forall args, e = EAdd args ->
     let kept := filter (fun t => mem_expr var (free_symbols L t)) args in
     (forall t, In t kept <-> In t args /\ In var (free_symbols L t)) /\
     (kept = [] -> _remove_constants L e var = EInt 0) /\
     (kept <> [] -> _remove_constants L e var = add_args L kept)) /\
  ((forall args, e <> EAdd args) ->
     (In var (free_symbols L e) -> _remove_constants L e var = e) /\
     (~ In var (free_symbols L e) -> _remove_constants L e var = EInt 0)).
Proof.
  split.
  - intros args -> kept. split; [|split].
    + intros t. unfold kept. rewrite filter_In, mem_expr_In. reflexivity.
    + intros Hk. simpl. fold kept. rewrite Hk. reflexivity.
    + intros Hk. simpl. fold kept. destruct kept; [contradiction Hk; reflexivity|].
      reflexivity.
  - intros Hnot.
    assert (R : _remove_constants L e var
                = if mem_expr var (free_symbols L e) then e else EInt 0).
    { destruct e; try reflexivity. exfalso; exact (Hnot _ eq_refl). }
    rewrite R. split; intros H.
    + rewrite (proj2 (mem_expr_In _ _) H). reflexivity.
    + destruct (mem_expr var (free_symbols L e)) eqn:E; [|reflexivity].
      exfalso; apply H, mem_expr_In, E.
Qed.

(** Claim C9: when the expression parses and the registry accepts
    [expected_unit], [dimensional_check] returns [equivalent] equal to
    [details.has_units], which holds iff [str] of the parsed expression
    contains one of the unit tokens; any other accepted unit gives the same
    verdict. *)
Theorem dimensional_check_has_units (L : SymPyLib) expr expected_unit e :
  _safe_parse L expr = PyOk e -> ureg_parse_expression L expected_unit = PyOk tt ->
  exists r, dimensional_check L expr expected_unit = PyOk r /\
    outcome r = has_unit_pattern (sstr L e) /\
    lookup "has_units" (details r) = Some (VBool (outcome r)) /\
    (has_unit_pattern (sstr L e) = true <->
       exists p, In p unit_patterns /\ str_contains (sstr L e) p = true) /\
    (forall u', ureg_parse_expression L u' = PyOk tt ->
       exists r', dimensional_check L expr u' = PyOk r' /\ outcome r' = outcome r).
Proof.
  intros H1 H2.
  assert (G : forall u, ureg_parse_expression L u = PyOk tt ->
            dimensional_check L expr u = PyOk (mkResult (has_unit_pattern (sstr L e))
              [("expression", VStr (sstr L e)); ("expected_unit", VStr u);
               ("has_units", VBool (has_unit_pattern (sstr L e)));
               ("note", VStr "Simplified unit checking - full implementation would require proper unit analysis")])).
  { intros u Hu. unfold dimensional_check, dimensional_body.
    rewrite H1; cbn [py_bind]. rewrite Hu. reflexivity. }
  eexists; split; [exact (G _ H2)|]. cbn [outcome details].
  split; [reflexivity|]. split; [reflexivity|]. split.
  - unfold has_unit_pattern. apply existsb_exists.
  - intros u' Hu'. eexists; split; [exact (G _ Hu')|reflexivity].
Qed.

(** Claim C4 (the code departs from it): the finiteness check tests only
    [oo] and [-oo], so a limit equal to complex infinity [zoo] is reported
    as existing and finite with [equivalent=true], on every library; with
    the reference library, [limit_equal("zoo", "x", "0", "right")] gives
    this result. *)
Theorem limit_zoo_reported_finite :
  (forall (L : SymPyLib) direction,
     outcome (limit_finite_check L (EConst CZoo) direction) = true /\
     lookup "finite" (details (limit_finite_check L (EConst CZoo) direction))
       = Some (VBool true)) /\
  _safe_parse Ref "zoo" = PyOk (EConst CZoo) /\
  limit Ref (EConst CZoo) (ESym "x") (EInt 0) "+" = PyOk (Some (EConst CZoo)) /\
  limit_equal Ref "zoo" "x" (inl "0") "right" default_tolerance
    = PyOk (mkResult true
        [("computed", VStr "zoo"); ("limit_exists", VBool true);
         ("finite", VBool true); ("direction", VStr "right")]).
Proof.
  split; [intros L d; split; reflexivity|].
  split; [vm_compute; reflexivity|]. split; vm_compute; reflexivity.
Qed.

(** Claim C7 (the code departs from it): [lhs_sympy | rhs_sympy] is SymPy's
    logical [Or], not a union of symbol sets; for [pi] and [3] it raises a
    [TypeError], so [algebra_equiv("pi", "3", tolerance=1.0)] returns
    [equivalent=false] with an error, while the direct comparison of the
    constants the code means to perform accepts them ([abs(pi - 3) <= 1]). *)
Theorem algebra_constants_not_compared :
  py_or (EConst CPi) (EInt 3)
    = raise TypeError "unsupported operand type(s) for |: 'Pi' and 'Integer'" /\
  algebra_equiv Ref "pi" "3" (FFin 1) 0
    = PyOk (mkResult false
        [("error", VStr "unsupported operand type(s) for |: 'Pi' and 'Integer'");
         ("lhs", VNone); ("rhs", VNone)]) /\
  compare_constants Ref (EConst CPi) (EInt 3) (FFin 1) = PyOk true.
Proof. split; [reflexivity|]. split; vm_compute; reflexivity. Qed.

(** Claim C8 (the code departs from it): the constant branch of
    [numeric_probe] returns [valid=true] for any constant [float()]
    accepts, with no [isnan]/[isinf] test (the symbol branch has one):
    [numeric_probe("oo")] is valid with [constant_value=inf].
    [numeric_probe("5")] is valid with [constant_value=5.0] and
    [points_tested=0]. *)
Theorem numeric_probe_infinite_constant_valid :
  numeric_probe Ref "oo" 10 0
    = PyOk (mkResult true
        [("constant_value", VFloat FPosInf); ("points_tested", VInt 0);
         ("evaluation_errors", VInt 0)]) /\
  np_isinf FPosInf = true /\
  numeric_probe Ref "5" 10 0
    = PyOk (mkResult true
        [("constant_value", VFloat (FFin (inject_Z 5))); ("points_tested", VInt 0);
         ("evaluation_errors", VInt 0)]).
Proof. split; [|split]; vm_compute; reflexivity. Qed.

(** Claim C3 (the code departs from it): the expected derivative [nan] evaluates at every
    point without error; the first sampled point gives [1] and [nan], whose
    difference is not [<= tolerance], and the derivative engine still
    returns [equivalent=true], since the loop tests [abs(a - b) > tolerance],
    which is false for NaN. *)
Lemma derivative_nan_difference_accepted :
  derivative_equivalent Ref "x" "x" "nan" default_tolerance 0
    = PyOk (mkResult true
        [("computed", VStr "1"); ("expected", VStr "nan");
         ("symbolic_match", VBool false); ("numerical_match", VBool true)]) /\
  In (FFin (inject_Z (-10))) (fst (draw Ref 0 10)) /\
  eval_single Ref (EInt 1) (EConst CNaN) (ESym "x") (FFin (inject_Z (-10)))
    = PyOk (FFin (inject_Z 1), FNaN) /\
  fle (fabs (fsub (FFin (inject_Z 1)) FNaN)) default_tolerance = false.
Proof.
  split; [vm_compute; reflexivity|].
  split; [vm_compute; left; reflexivity|].
  split; vm_compute; reflexivity.
Qed.

(** ** Witnesses: the claims' theorems at concrete inputs *)

Lemma engines_let_system_exit_escape_witness :
  parse_transformed Ref "exec('raise SystemExit')"
    = PyOk (PCall (PName "exec") [PStr "raise SystemExit"]) /\
  derivative_equivalent Ref "exec('raise SystemExit')" "x" "1" default_tolerance 0
    = PyErr (mkExc SystemExit EmptyString).
Proof.
  assert (H1 : parse_transformed Ref "exec('raise SystemExit')"
                 = PyOk (PCall (PName "exec") [PStr "raise SystemExit"]))
    by (vm_compute; reflexivity).
  split; [exact H1|].
  exact (proj1 (engines_let_system_exit_escape Ref "x" "1" false (inl "0") "right" "x"
                  "m" 10 default_tolerance 0 H1 ltac:(vm_compute; reflexivity))).
Defined.

Lemma engines_contain_exceptions_witness :
  lib_messages_nonempty Ref /\
  engine_ok (derivative_equivalent Ref "x^" "x" "x" default_tolerance 0) /\
  engine_ok (numeric_probe Ref "sin(" 10 0) /\
  engine_ok (derivative_equivalent Ref "exec('raise SystemExit')" "x" "1"
               default_tolerance 0).
Proof.
  split; [exact Ref_messages_nonempty|].
  split; [|split].
  - exact (proj1 (engines_contain_exceptions Ref Ref_messages_nonempty) _ _ _ _ _).
  - exact (proj2 (proj2 (proj2 (proj2 (proj2
             (engines_contain_exceptions Ref Ref_messages_nonempty))))) _ _ _).
  - exact (proj1 (engines_contain_exceptions Ref Ref_messages_nonempty) _ _ _ _ _).
Defined.

Lemma safe_parse_rejects_unsafe_witness :
  parse_transformed Ref "eval('x')" = PyOk (PCall (PName "eval") [PStr "x"]) /\
  parse_transformed Ref "__import__('os')"
    = PyOk (PCall (PName "__import__") [PStr "os"]) /\
  parse_transformed Ref "open('f')" = PyOk (PCall (PName "open") [PStr "f"]) /\
  parse_transformed Ref "x@y" = PyOk (PBin OpMatMul (PName "x") (PName "y")) /\
  parse_python Ref "x" = PyOk (PName "x") /\
  sympy_name Ref "x" = None /\
  _safe_parse Ref "__import__('os')"
    = raise ValueError "Unsafe function detected in expression '__import__('os')'".
Proof.
  assert (H1 : parse_transformed Ref "eval('x')"
               = PyOk (PCall (PName "eval") [PStr "x"])) by reflexivity.
  assert (H2 : parse_transformed Ref "__import__('os')"
               = PyOk (PCall (PName "__import__") [PStr "os"])) by reflexivity.
  assert (H3 : parse_transformed Ref "open('f')"
               = PyOk (PCall (PName "open") [PStr "f"])) by reflexivity.
  assert (H4 : parse_transformed Ref "x@y"
               = PyOk (PBin OpMatMul (PName "x") (PName "y"))) by reflexivity.
  assert (H5 : parse_python Ref "x" = PyOk (PName "x")) by reflexivity.
  assert (H6 : sympy_name Ref "x" = None) by reflexivity.
  repeat (split; [assumption|]).
  exact (proj1 (proj2 (safe_parse_rejects_unsafe Ref H1 H2 H3 H4 H5 H6))).
Defined.

Lemma numeric_fallback_verdict_witness :
  (derivative_inconclusive Ref "x" "x" "zoo" (ESym "x") (ESym "x") (EInt 1) (EConst CZoo) /\
   continuous_domain Ref (ESym "x") (ESym "x") = PyOk tt /\
   all_points_skipped (eval_single Ref (EInt 1) (EConst CZoo) (ESym "x"))
     (fst (draw Ref 0 10)) /\
   exists r, derivative_equivalent Ref "x" "x" "zoo" default_tolerance 0 = PyOk r /\
     outcome r = true /\ lookup "error" (details r) = None) /\
  (integral_inconclusive Ref "3" "x" "zoo" false (EInt 3) (ESym "x")
     (EMul [EInt 3; ESym "x"]) (EConst CZoo) /\
   continuous_domain Ref (EInt 3) (ESym "x") = PyOk tt /\
   all_points_skipped (eval_single Ref (EMul [EInt 3; ESym "x"]) (EConst CZoo) (ESym "x"))
     (fst (draw Ref 0 10)) /\
   exists r, integral_equivalent Ref "3" "x" "zoo" false default_tolerance 0 = PyOk r /\
     outcome r = true /\ lookup "error" (details r) = None) /\
  (let r := mkResult false
              [("lhs", VStr "x"); ("rhs", VStr "y");
               ("symbolic_match", VBool false); ("numerical_match", VBool false)] in
   algebra_inconclusive Ref "x" "y" (ESym "x") (ESym "y") [ESym "x"; ESym "y"] /\
   algebra_equiv Ref "x" "y" default_tolerance 0 = PyOk r /\
   lookup "error" (details r) = None /\
   outcome r = fallback_verdict (eval_multi Ref (ESym "x") (ESym "y")) default_tolerance
                 (_generate_test_points_multi Ref [ESym "x"; ESym "y"] 10 0)).
Proof.
  pose proof (numeric_fallback_verdict Ref) as [_ [HD [HI HA]]].
  split; [|split].
  - assert (Hinc : derivative_inconclusive Ref "x" "x" "zoo"
                     (ESym "x") (ESym "x") (EInt 1) (EConst CZoo)).
    { exists (EConst CZoo), (EInt 1), (EAdd [EInt 1; EMul [EInt (-1); EConst CZoo]]),
             (EAdd [EInt 1; EMul [EInt (-1); EConst CZoo]]).
      repeat split; vm_compute; reflexivity. }
    assert (Hcd : continuous_domain Ref (ESym "x") (ESym "x") = PyOk tt) by reflexivity.
    assert (Hsk : all_points_skipped (eval_single Ref (EInt 1) (EConst CZoo) (ESym "x"))
                    (fst (draw Ref 0 10)))
      by (apply all_points_skipped_of_check; vm_compute; reflexivity).
    split; [exact Hinc|]. split; [exact Hcd|]. split; [exact Hsk|].
    exact (proj2 (HD "x" "x" "zoo" default_tolerance 0%Z _ _ _ _ Hinc) Hcd Hsk).
  - assert (Hinc : integral_inconclusive Ref "3" "x" "zoo" false (EInt 3) (ESym "x")
                     (EMul [EInt 3; ESym "x"]) (EConst CZoo)).
    { exists (EConst CZoo), (EMul [EInt 3; ESym "x"]),
             (EAdd [EMul [EInt 3; ESym "x"]; EMul [EInt (-1); EConst CZoo]]),
             (EAdd [EMul [EInt 3; ESym "x"]; EMul [EInt (-1); EConst CZoo]]).
      repeat split; vm_compute; reflexivity. }
    assert (Hcd : continuous_domain Ref (EInt 3) (ESym "x") = PyOk tt) by reflexivity.
    assert (Hsk : all_points_skipped
                    (eval_single Ref (EMul [EInt 3; ESym "x"]) (EConst CZoo) (ESym "x"))
                    (fst (draw Ref 0 10)))
      by (apply all_points_skipped_of_check; vm_compute; reflexivity).
    split; [exact Hinc|]. split; [exact Hcd|]. split; [exact Hsk|].
    exact (proj2 (HI "3" "x" "zoo" false default_tolerance 0%Z _ _ _ _ Hinc) Hcd Hsk).
  - cbv zeta.
    assert (Hinc : algebra_inconclusive Ref "x" "y" (ESym "x") (ESym "y")
                     [ESym "x"; ESym "y"]).
    { exists (ESym "x"), (ESym "y"), (EAdd [ESym "x"; EMul [EInt (-1); ESym "y"]]),
             (EAdd [ESym "x"; EMul [EInt (-1); ESym "y"]]),
             (EOr [ESym "x"; ESym "y"]).
      repeat split; vm_compute; reflexivity. }
    assert (Hne : [ESym "x"; ESym "y"] <> []) by discriminate.
    assert (Hr : algebra_equiv Ref "x" "y" default_tolerance 0
                 = PyOk (mkResult false
                     [("lhs", VStr "x"); ("rhs", VStr "y");
                      ("symbolic_match", VBool false); ("numerical_match", VBool false)]))
      by (vm_compute; reflexivity).
    assert (He : lookup "error" (details (mkResult false
                     [("lhs", VStr "x"); ("rhs", VStr "y");
                      ("symbolic_match", VBool false); ("numerical_match", VBool false)]))
                 = None) by reflexivity.
    split; [exact Hinc|]. split; [exact Hr|]. split; [exact He|].
    exact (HA "x" "y" default_tolerance 0%Z _ _ _ Hinc Hne _ Hr He).
Defined.

Lemma limit_both_cross_check_witness :
  _safe_parse Ref "1/x" = PyOk (EPow (ESym "x") (EInt (-1))) /\
  symbols Ref "x" = PyOk (ESym "x") /\
  _safe_parse Ref "0" = PyOk (EInt 0) /\
  limit Ref (EPow (ESym "x") (EInt (-1))) (ESym "x") (EInt 0) "-"
    = PyOk (Some (EConst CNegOo)) /\
  limit Ref (EPow (ESym "x") (EInt (-1))) (ESym "x") (EInt 0) "+"
    = PyOk (Some (EConst COo)) /\
  opt_expr_eqb (Some (EConst CNegOo)) (Some (EConst COo)) = false /\
  exists res, limit_equal Ref "1/x" "x" (inl "0") "both" default_tolerance = PyOk res /\
    outcome res = false /\ lookup "limit_exists" (details res) = Some (VBool false).
Proof.
  assert (H1 : _safe_parse Ref "1/x" = PyOk (EPow (ESym "x") (EInt (-1))))
    by (vm_compute; reflexivity).
  assert (H2 : symbols Ref "x" = PyOk (ESym "x")) by reflexivity.
  assert (H3 : _safe_parse Ref "0" = PyOk (EInt 0)) by (vm_compute; reflexivity).
  assert (H4 : limit Ref (EPow (ESym "x") (EInt (-1))) (ESym "x") (EInt 0) "-"
               = PyOk (Some (EConst CNegOo))) by (vm_compute; reflexivity).
  assert (H5 : limit Ref (EPow (ESym "x") (EInt (-1))) (ESym "x") (EInt 0) "+"
               = PyOk (Some (EConst COo))) by (vm_compute; reflexivity).
  assert (H6 : opt_expr_eqb (Some (EConst CNegOo)) (Some (EConst COo)) = false)
    by reflexivity.
  repeat (split; [assumption|]).
  exact (limit_both_cross_check Ref "1/x" "x" (inl "0") default_tolerance _ _ _ _ _
           H1 H2 H3 H4 H5 H6).
Defined.

Lemma remove_constants_policy_witness :
  (EAdd [ESym "x"; EInt 5] = EAdd [ESym "x"; EInt 5] /\
   let kept := filter (fun t => mem_expr (ESym "x") (free_symbols Ref t))
                 [ESym "x"; EInt 5] in
   (forall t, In t kept <-> In t [ESym "x"; EInt 5] /\ In (ESym "x") (free_symbols Ref t)) /\
   (kept = [] -> _remove_constants Ref (EAdd [ESym "x"; EInt 5]) (ESym "x") = EInt 0) /\
   (kept <> [] ->
    _remove_constants Ref (EAdd [ESym "x"; EInt 5]) (ESym "x") = add_args Ref kept)) /\
  ((forall args, EMul [EInt 3; ESym "x"] <> EAdd args) /\
   In (ESym "x") (free_symbols Ref (EMul [EInt 3; ESym "x"])) /\
   _remove_constants Ref (EMul [EInt 3; ESym "x"]) (ESym "x") = EMul [EInt 3; ESym "x"]).
Proof.
  split.
  - split; [reflexivity|].
    exact (proj1 (remove_constants_policy Ref (EAdd [ESym "x"; EInt 5]) (ESym "x"))
             [ESym "x"; EInt 5] eq_refl).
  - assert (Hn : forall args, EMul [EInt 3; ESym "x"] <> EAdd args) by discriminate.
    assert (Hin : In (ESym "x") (free_symbols Ref (EMul [EInt 3; ESym "x"])))
      by (vm_compute; left; reflexivity).
    split; [exact Hn|]. split; [exact Hin|].
    exact (proj1 (proj2 (remove_constants_policy Ref (EMul [EInt 3; ESym "x"]) (ESym "x"))
             Hn) Hin).
Defined.

Lemma dimensional_check_has_units_witness :
  _safe_parse Ref "x*m" = PyOk (EMul [ESym "x"; ESym "m"]) /\
  ureg_parse_expression Ref "m" = PyOk tt /\
  exists r, dimensional_check Ref "x*m" "m" = PyOk r /\
    outcome r = has_unit_pattern (sstr Ref (EMul [ESym "x"; ESym "m"])) /\
    lookup "has_units" (details r) = Some (VBool (outcome r)) /\
    (has_unit_pattern (sstr Ref (EMul [ESym "x"; ESym "m"])) = true <->
       exists p, In p unit_patterns /\
         str_contains (sstr Ref (EMul [ESym "x"; ESym "m"])) p = true) /\
    (forall u', ureg_parse_expression Ref u' = PyOk tt ->
       exists r', dimensional_check Ref "x*m" u' = PyOk r' /\ outcome r' = outcome r).
Proof.
  assert (H1 : _safe_parse Ref "x*m" = PyOk (EMul [ESym "x"; ESym "m"]))
    by (vm_compute; reflexivity).
  assert (H2 : ureg_parse_expression Ref "m" = PyOk tt) by reflexivity.
  split; [exact H1|]. split; [exact H2|].
  exact (dimensional_check_has_units Ref "x*m" "m" _ H1 H2).
Defined.

Lemma outcome_is_symbolic_or_numerical_witness :
  (let r := mkResult true
              [("computed", VStr "2*x**1"); ("expected", VStr "2*x");
               ("symbolic_match", VBool false); ("numerical_match", VBool true)] in
   derivative_equivalent Ref "x^2" "x" "2*x" default_tolerance 0 = PyOk r /\
   lookup "error" (details r) = None /\ match_invariant r) /\
  (let r := mkResult true
              [("computed", VStr "3*x"); ("expected", VStr "zoo");
               ("computed_clean", VStr "3*x"); ("expected_clean", VStr "zoo");
               ("symbolic_match", VBool false); ("numerical_match", VBool true);
               ("constant_free", VBool false)] in
   integral_equivalent Ref "3" "x" "zoo" false default_tolerance 0 = PyOk r /\
   lookup "error" (details r) = None /\ match_invariant r) /\
  (let r := mkResult false
              [("lhs", VStr "x"); ("rhs", VStr "y");
               ("symbolic_match", VBool false); ("numerical_match", VBool false)] in
   algebra_equiv Ref "x" "y" default_tolerance 0 = PyOk r /\
   lookup "error" (details r) = None /\ match_invariant r).
Proof.
  pose proof (outcome_is_symbolic_or_numerical Ref) as [HD [HI HA]].
  cbv zeta. split; [|split].
  - match goal with |- ?m = PyOk ?r /\ _ =>
      assert (E : m = PyOk r) by (vm_compute; reflexivity) end.
    split; [exact E|]. split; [reflexivity|].
    exact (HD "x^2" "x" "2*x" default_tolerance 0%Z _ E).
  - match goal with |- ?m = PyOk ?r /\ _ =>
      assert (E : m = PyOk r) by (vm_compute; reflexivity) end.
    split; [exact E|]. split; [reflexivity|].
    exact (HI "3" "x" "zoo" false default_tolerance 0%Z _ E).
  - match goal with |- ?m = PyOk ?r /\ _ =>
      assert (E : m = PyOk r) by (vm_compute; reflexivity) end.
    split; [exact E|]. split; [reflexivity|].
    exact (HA "x" "y" default_tolerance 0%Z _ E).
Defined.

(** ** Further properties of the module and of the HTTP service *)








(** [_safe_parse] (X2): a failure is either an exception that is not an
    [Exception] (such as [SystemExit]) raised while parsing or auditing and
    propagated unchanged, or a [ValueError] whose message is chosen from
    the text alone, whatever [Exception] was caught: an input containing
    [eval], [__import__] or [open] is reported as an unsafe function, else
    one containing [@], [.] or [-] as an unsafe symbol pattern; otherwise
    the message wraps [str] of the caught exception. *)
Theorem safe_parse_error_message (L : SymPyLib) (s : string) (ex : PyExc) :
  _safe_parse L s = PyErr ex ->
  (is_Exception (exc_class ex) = false /\
   (parsed <- parse_expr L s ;; audit L parsed) = PyErr ex) \/
  (exc_class ex = ValueError /\
  (str_contains s "eval" || str_contains s "__import__" || str_contains s "open" = true ->
     exc_msg ex = "Unsafe function detected in expression '" ++ s ++ "'") /\
  (str_contains s "eval" || str_contains s "__import__" || str_contains s "open" = false ->
   str_contains s "@" || str_contains s "." || str_contains s "-" = true ->
     exc_msg ex = "Unsafe symbol pattern in expression '" ++ s ++ "'") /\
  (str_contains s "eval" || str_contains s "__import__" || str_contains s "open" = false ->
   str_contains s "@" || str_contains s "." || str_contains s "-" = false ->
     exists inner, (parsed <- parse_expr L s ;; audit L parsed) = PyErr inner /\
       exc_msg ex = "Failed to parse expression '" ++ s ++ "': " ++ exc_msg inner)).
Proof.
  unfold _safe_parse, py_try.
  destruct (parsed <- parse_expr L s ;; audit L parsed) as [a|inner] eqn:B;
    [discriminate|].
  destruct (is_Exception (exc_class inner)) eqn:X;
    [|intros H; injection H as <-; left; split; reflexivity || exact X].
  unfold safe_parse_handler.
  destruct (str_contains s "eval" || str_contains s "__import__" || str_contains s "open")
    eqn:F.
  - intros H; injection H as <-. right. simpl.
    repeat split; intros; try reflexivity; discriminate.
  - destruct (str_contains s "@" || str_contains s "." || str_contains s "-") eqn:G.
    + intros H; injection H as <-. right. simpl.
      repeat split; intros; try reflexivity; discriminate.
    + intros H; injection H as <-. right. simpl. repeat split; intros; try discriminate.
      exists inner; split; reflexivity.
Qed.

Lemma safe_parse_error_message_witness :
  _safe_parse Ref "x -" = raise ValueError "Unsafe symbol pattern in expression 'x -'" /\
  exc_msg (mkExc ValueError "Unsafe symbol pattern in expression 'x -'")
    = "Unsafe symbol pattern in expression 'x -'" /\
  _safe_parse Ref "exec('raise SystemExit')" = PyErr (mkExc SystemExit EmptyString) /\
  (parsed <- parse_expr Ref "exec('raise SystemExit')" ;; audit Ref parsed)
    = PyErr (mkExc SystemExit EmptyString).
Proof.
  assert (H : _safe_parse Ref "x -" = raise ValueError "Unsafe symbol pattern in expression 'x -'")
    by (vm_compute; reflexivity).
  assert (H' : _safe_parse Ref "exec('raise SystemExit')" = PyErr (mkExc SystemExit EmptyString))
    by (vm_compute; reflexivity).
  split; [exact H|]. split.
  - destruct (safe_parse_error_message Ref _ _ H) as [[X _]|[_ [_ [M _]]]];
      [vm_compute in X; discriminate X|].
    apply M; vm_compute; reflexivity.
  - split; [exact H'|].
    destruct (safe_parse_error_message Ref _ _ H') as [[_ B]|[C _]];
      [exact B | vm_compute in C; discriminate C].
Defined.

Lemma word_tail_cons (c : ascii) (r : string) :
  is_word c = true -> word_tail_to_end r = true -> word_tail_to_end (String c r) = true.
Proof. intros Hc Hr. destruct r; simpl; rewrite Hc; [reflexivity | exact Hr]. Qed.

Lemma word_tail_spec (r : string) :
  word_tail_to_end r = true <->
  exists w, all_word w = true /\ (r = w \/ r = w ++ String newline EmptyString).
Proof.
  split.
  - induction r as [|c r IH].
    + intros _. exists EmptyString; split; [reflexivity | left; reflexivity].
    + destruct r as [|c' r'].
      * simpl. intros H. destruct (is_word c) eqn:Hc.
        -- exists (String c EmptyString); split; [unfold all_word; cbn [list_ascii_of_string forallb]; rewrite Hc; reflexivity|].
           left; reflexivity.
        -- simpl in H. apply Ascii.eqb_eq in H. subst c.
           exists EmptyString; split; [reflexivity | right; reflexivity].
      * change (word_tail_to_end (String c (String c' r')))
          with (is_word c && word_tail_to_end (String c' r')).
        rewrite andb_true_iff. intros [Hc Hr].
        destruct (IH Hr) as [w [Hw [E|E]]].
        -- exists (String c w); split; [unfold all_word in *; cbn [list_ascii_of_string forallb]; rewrite Hc; exact Hw|].
           left; rewrite E; reflexivity.
        -- exists (String c w); split; [unfold all_word in *; cbn [list_ascii_of_string forallb]; rewrite Hc; exact Hw|].
           right; rewrite E; reflexivity.
  - intros [w [Hw E]]. revert r E.
    induction w as [|c w IH]; intros r E.
    + destruct E as [->| ->]; reflexivity.
    + unfold all_word in Hw; cbn [list_ascii_of_string forallb] in Hw; fold (all_word w) in Hw. apply andb_true_iff in Hw as [Hc Hw].
      destruct E as [->| ->].
      * apply word_tail_cons; [exact Hc | apply (IH Hw); left; reflexivity].
      * apply word_tail_cons; [exact Hc | apply (IH Hw); right; reflexivity].
Qed.

(** [SAFE_SYMBOL_PATTERN.match] (X3): a name matches iff it is a letter or
    [_] followed by letters, digits and [_], optionally followed by one
    final newline (Python's [$] matches before a trailing newline). *)
Theorem safe_symbol_pattern_spec (s : string) :
  SAFE_SYMBOL_PATTERN_match s = true <->
  exists c w, is_letter_ c = true /\ all_word w = true /\
    (s = String c w \/ s = String c (w ++ String newline EmptyString)).
Proof.
  destruct s as [|c r]; simpl.
  - split; [discriminate|]. intros [c [w [_ [_ [H|H]]]]]; discriminate.
  - rewrite andb_true_iff, word_tail_spec. split.
    + intros [Hc [w [Hw E]]]; exists c, w; split; [exact Hc|]; split; [exact Hw|].
      destruct E as [E|E]; rewrite E; auto.
    + intros [c' [w [Hc [Hw [E|E]]]]]; injection E; intros; subst;
        split; auto; exists w; auto.
Qed.

Lemma draw_length (L : SymPyLib) seed n : length (fst (draw L seed n)) = n.
Proof.
  revert seed; induction n as [|n IH]; intros seed; simpl; [reflexivity|].
  destruct (uniform L seed) as [p s1]. specialize (IH s1).
  destruct (draw L s1 n) as [ps s2]; simpl in *. rewrite IH; reflexivity.
Qed.

Lemma draw_point_keys (L : SymPyLib) syms seed : map fst (fst (draw_point L syms seed)) = syms.
Proof.
  revert seed; induction syms as [|x xs IH]; intros seed; simpl; [reflexivity|].
  destruct (uniform L seed) as [v s1]. specialize (IH s1).
  destruct (draw_point L xs s1) as [d s2]; simpl in *. rewrite IH; reflexivity.
Qed.

Lemma draw_points_shape (L : SymPyLib) syms seed n :
  length (fst (draw_points L syms seed n)) = n /\
  Forall (fun d => map fst d = syms) (fst (draw_points L syms seed n)).
Proof.
  revert seed; induction n as [|n IH]; intros seed; simpl; [split; auto|].
  pose proof (draw_point_keys L syms seed) as K.
  destruct (draw_point L syms seed) as [d s1]. specialize (IH s1).
  destruct (draw_points L syms s1 n) as [ds s2]; simpl in *.
  destruct IH as [IH1 IH2]. split; [rewrite IH1; reflexivity | constructor; assumption].
Qed.

Lemma draw_range (L : SymPyLib) (Hu : forall s, in_sample_range (fst (uniform L s))) seed n :
  Forall in_sample_range (fst (draw L seed n)).
Proof.
  revert seed; induction n as [|n IH]; intros seed; simpl; [constructor|].
  pose proof (Hu seed) as H.
  destruct (uniform L seed) as [p s1]. specialize (IH s1).
  destruct (draw L s1 n) as [ps s2]; simpl in *. constructor; assumption.
Qed.

Lemma draw_point_range (L : SymPyLib) (Hu : forall s, in_sample_range (fst (uniform L s)))
  syms seed : Forall (fun kv => in_sample_range (snd kv)) (fst (draw_point L syms seed)).
Proof.
  revert seed; induction syms as [|x xs IH]; intros seed; simpl; [constructor|].
  pose proof (Hu seed) as H.
  destruct (uniform L seed) as [v s1]. specialize (IH s1).
  destruct (draw_point L xs s1) as [d s2]; simpl in *. constructor; assumption.
Qed.

Lemma draw_points_range (L : SymPyLib) (Hu : forall s, in_sample_range (fst (uniform L s)))
  syms seed n :
  Forall (fun d => Forall (fun kv => in_sample_range (snd kv)) d)
    (fst (draw_points L syms seed n)).
Proof.
  revert seed; induction n as [|n IH]; intros seed; simpl; [constructor|].
  pose proof (draw_point_range L Hu syms seed) as K.
  destruct (draw_point L syms seed) as [d s1]. specialize (IH s1).
  destruct (draw_points L syms s1 n) as [ds s2]; simpl in *. constructor; assumption.
Qed.

Lemma probe_loop_counts (L : SymPyLib) e pts vc ec res vc' ec' res' :
  probe_loop L e pts vc ec res = PyOk (vc', ec', res') ->
  (vc' + ec' = vc + ec + Z.of_nat (length pts))%Z /\ (ec <= ec')%Z /\
  exists new, res' = (res ++ new)%list /\ vc' = (vc + Z.of_nat (length new))%Z /\
    Forall finite_float new.
Proof.
  revert vc ec res; induction pts as [|p ps IH]; intros vc ec res; cbn [probe_loop].
  - intros H; injection H as <- <- <-. split; [simpl; lia|]. split; [lia|].
    exists []; split; [rewrite app_nil_r; reflexivity|]. split; [simpl; lia | constructor].
  - destruct (s <- subs L e p ;; to_float L s) as [x|ex].
    + destruct (np_isnan x || np_isinf x) eqn:F; cbn [negb].
      * intros H. destruct (IH _ _ _ H) as [H1 [H2 H3]].
        split; [simpl length; lia|]. split; [lia | exact H3].
      * intros H. destruct (IH _ _ _ H) as [H1 [H2 [new [-> [H4 H5]]]]].
        split; [simpl length; lia|]. split; [lia|].
        exists (x :: new). split; [rewrite <- app_assoc; reflexivity|].
        split; [simpl length; lia|].
        apply orb_false_iff in F. constructor; [exact F | exact H5].
    + destruct (catches_Value_Type_ZeroDiv (exc_class ex)); [|discriminate].
      intros H. destruct (IH _ _ _ H) as [H1 [H2 H3]].
      split; [simpl length; lia|]. split; [lia | exact H3].
Qed.

(** The samplers (X4): [_generate_test_points] returns [num_points] points
    (none when [num_points <= 0]) whatever the expression, and
    [_generate_test_points_multi] returns [num_points] dictionaries, each
    with exactly the given symbols as keys, in order. *)
Theorem test_points_shape (L : SymPyLib) :
  (forall expr var n seed pts,
     _generate_test_points L expr var n seed = PyOk pts -> length pts = Z.to_nat n) /\
  (forall syms n seed,
     length (_generate_test_points_multi L syms n seed) = Z.to_nat n /\
     Forall (fun d => map fst d = syms) (_generate_test_points_multi L syms n seed)).
Proof.
  split.
  - intros expr var n seed pts. unfold _generate_test_points.
    destruct (continuous_domain L expr var); cbn [py_bind]; [|discriminate].
    intros H; injection H as <-. apply draw_length.
  - intros syms n seed. apply draw_points_shape.
Qed.

(** The samplers (X5): when [np.random.uniform(-10, 10)] returns finite
    values in [[-10, 10]], every sampled value of both samplers is such a
    value. *)
Theorem test_points_in_range (L : SymPyLib)
  (Hu : forall s, in_sample_range (fst (uniform L s))) :
  (forall expr var n seed pts,
     _generate_test_points L expr var n seed = PyOk pts -> Forall in_sample_range pts) /\
  (forall syms n seed,
     Forall (fun d => Forall (fun kv => in_sample_range (snd kv)) d)
       (_generate_test_points_multi L syms n seed)).
Proof.
  split.
  - intros expr var n seed pts. unfold _generate_test_points.
    destruct (continuous_domain L expr var); cbn [py_bind]; [|discriminate].
    intros H; injection H as <-. apply draw_range, Hu.
  - intros syms n seed. apply draw_points_range, Hu.
Qed.

(** [numeric_probe] on an expression with symbols (X6): a result without
    error reports [points_tested = max(0, num_points)], non-negative
    [valid_evaluations] and [evaluation_errors] adding up to it,
    [valid = (valid_evaluations > 0)], and at most five sample results, all
    finite. *)
Theorem numeric_probe_counts (L : SymPyLib) expr n seed e r :
  _safe_parse L expr = PyOk e -> symbol_atoms e <> [] ->
  numeric_probe L expr n seed = PyOk r -> lookup "error" (details r) = None ->
  exists vc ec samples,
    details r = [("points_tested", VInt (Z.max 0 n)); ("valid_evaluations", VInt vc);
                 ("evaluation_errors", VInt ec); ("sample_results", VFloatList samples)] /\
    outcome r = (0 <? vc)%Z /\ (0 <= vc)%Z /\ (0 <= ec)%Z /\ (vc + ec = Z.max 0 n)%Z /\
    length samples = Nat.min 5 (Z.to_nat vc) /\ Forall finite_float samples.
Proof.
  intros H1 H2 H3 Herr.
  pose proof (try_result_cases _ _ _ H3 Herr) as HB.
  unfold numeric_probe_body in HB. rewrite H1 in HB; cbn [py_bind] in HB.
  destruct (symbol_atoms e) as [|s ss]; [contradiction H2; reflexivity|].
  destruct (draw_points_shape L (s :: ss) seed (Z.to_nat n)) as [Hlen _].
  unfold _generate_test_points_multi in HB.
  destruct (probe_loop L e (fst (draw_points L (s :: ss) seed (Z.to_nat n))) 0 0 [])
    as [[[vc ec] res]|ex] eqn:P; cbn [py_bind] in HB; [|discriminate].
  injection HB as <-.
  destruct (probe_loop_counts L _ _ _ _ _ _ _ _ P) as [C1 [C2 [new [Hres [Hvc HF]]]]].
  rewrite Hlen in C1. simpl in Hres; subst res.
  exists vc, ec, (firstn 5 new). cbn [details outcome].
  rewrite Hlen. split; [do 2 f_equal; f_equal; f_equal; lia|].
  split; [reflexivity|]. split; [lia|]. split; [lia|]. split; [lia|].
  split.
  - rewrite length_firstn, Hvc. f_equal. lia.
  - rewrite <- (firstn_skipn 5 new) in HF. apply Forall_app in HF. apply HF.
Qed.

Lemma numeric_probe_counts_witness :
  exists r, numeric_probe Ref "x" 3 0 = PyOk r /\
  exists vc ec samples,
    details r = [("points_tested", VInt (Z.max 0 3)); ("valid_evaluations", VInt vc);
                 ("evaluation_errors", VInt ec); ("sample_results", VFloatList samples)] /\
    outcome r = (0 <? vc)%Z /\ (0 <= vc)%Z /\ (0 <= ec)%Z /\ (vc + ec = Z.max 0 3)%Z /\
    length samples = Nat.min 5 (Z.to_nat vc) /\ Forall finite_float samples.
Proof.
  eexists; split; [vm_compute; reflexivity|].
  apply (numeric_probe_counts Ref "x" 3 0 (ESym "x"));
    [vm_compute; reflexivity | discriminate | vm_compute; reflexivity | vm_compute; reflexivity].
Defined.

(** [numeric_probe] with [num_points <= 0] on an expression with symbols
    (X7): nothing is evaluated and the result is [valid=false] with every
    count [0]. *)
Theorem numeric_probe_no_points (L : SymPyLib) expr n seed e :
  _safe_parse L expr = PyOk e -> symbol_atoms e <> [] -> (n <= 0)%Z ->
  numeric_probe L expr n seed
    = PyOk (mkResult false
        [("points_tested", VInt 0); ("valid_evaluations", VInt 0);
         ("evaluation_errors", VInt 0); ("sample_results", VFloatList [])]).
Proof.
  intros H1 H2 H3. unfold numeric_probe, numeric_probe_body.
  rewrite H1; cbn [py_bind].
  destruct (symbol_atoms e) as [|s ss]; [contradiction H2; reflexivity|].
  unfold _generate_test_points_multi. replace (Z.to_nat n) with 0%nat by lia.
  reflexivity.
Qed.

Lemma numeric_probe_no_points_witness :
  numeric_probe Ref "x" 0 0
    = PyOk (mkResult false
        [("points_tested", VInt 0); ("valid_evaluations", VInt 0);
         ("evaluation_errors", VInt 0); ("sample_results", VFloatList [])]).
Proof.
  apply (numeric_probe_no_points Ref "x" 0 0 (ESym "x"));
    [vm_compute; reflexivity | discriminate | lia].
Defined.

Lemma test_points_in_range_witness :
  Forall in_sample_range (fst (draw Ref 0 10)).
Proof.
  assert (Hu : forall s, in_sample_range (fst (uniform Ref s))).
  { intros s. simpl. exists (inject_Z (s mod 21 - 10)). split; [reflexivity|].
    pose proof (Z.mod_pos_bound s 21 ltac:(lia)).
    unfold Qle; simpl; split; lia. }
  apply (proj1 (test_points_in_range Ref Hu) (ESym "x") (ESym "x") 10%Z 0%Z).
  reflexivity.
Defined.

Lemma test_points_shape_witness :
  exists pts, _generate_test_points Ref (ESym "x") (ESym "x") 10 0 = PyOk pts /\
    length pts = Z.to_nat 10.
Proof.
  eexists; split; [vm_compute; reflexivity|].
  apply (proj1 (test_points_shape Ref) (ESym "x") (ESym "x") 10%Z 0%Z).
  vm_compute; reflexivity.
Defined.

Lemma safe_symbol_pattern_spec_witness :
  SAFE_SYMBOL_PATTERN_match (String "x"%char (String newline EmptyString)) = true.
Proof.
  apply safe_symbol_pattern_spec. exists "x"%char, EmptyString.
  split; [reflexivity|]. split; [reflexivity|]. right; reflexivity.
Defined.

Lemma numeric_match_app {P} (ev : P -> Py (PyFloat * PyFloat)) tol pre rest :
  forallb (point_passes ev tol) pre = true ->
  numeric_match ev tol (pre ++ rest) = numeric_match ev tol rest.
Proof.
  induction pre as [|p ps IH]; simpl; [reflexivity|].
  unfold point_passes at 1. rewrite andb_true_iff. intros [Hp Hps].
  destruct (ev p) as [[a b]|ex].
  - destruct (fgt _ _); [discriminate | exact (IH Hps)].
  - rewrite Hp. exact (IH Hps).
Qed.

(** The numeric comparison loop (X8): after points that pass, the first
    point with [abs(a - b) > tolerance] ends the loop with [False], and the
    first point raising an exception other than [ValueError] or
    [TypeError] propagates it; the later points are not evaluated. *)
Theorem numeric_match_stops_early {P : Type} (ev : P -> Py (PyFloat * PyFloat))
  tol pre p post :
  forallb (point_passes ev tol) pre = true ->
  (forall a b, ev p = PyOk (a, b) -> fgt (fabs (fsub a b)) tol = true ->
     numeric_match ev tol (pre ++ p :: post) = PyOk false) /\
  (forall ex, ev p = PyErr ex -> catches_Value_Type (exc_class ex) = false ->
     numeric_match ev tol (pre ++ p :: post) = PyErr ex).
Proof.
  intros Hpre. rewrite (numeric_match_app ev tol pre _ Hpre). simpl.
  split.
  - intros a b -> H. rewrite H. reflexivity.
  - intros ex -> H. rewrite H. reflexivity.
Qed.

Lemma numeric_match_stops_early_witness :
  numeric_match (eval_single Ref (ESym "x") (EInt 0) (ESym "x")) default_tolerance
    ([FFin 0] ++ FFin 1 :: [FFin 0]) = PyOk false /\
  numeric_match (eval_single Ref (EPow (ESym "x") (EInt (-1))) (EPow (ESym "x") (EInt (-1)))
                      (ESym "x"))
    default_tolerance ([FFin 1] ++ FFin 0 :: [FFin 2])
    = PyErr (mkExc ZeroDivisionError "division by zero").
Proof.
  split.
  - apply (proj1 (numeric_match_stops_early
                    (eval_single Ref (ESym "x") (EInt 0) (ESym "x")) default_tolerance
                    [FFin 0] (FFin 1) [FFin 0]
                    ltac:(vm_compute; reflexivity)) (FFin 1) (FFin 0));
      vm_compute; reflexivity.
  - apply (proj2 (numeric_match_stops_early
                    (eval_single Ref (EPow (ESym "x") (EInt (-1))) (EPow (ESym "x") (EInt (-1)))
                      (ESym "x"))
                    default_tolerance [FFin 1] (FFin 0) [FFin 2]
                    ltac:(vm_compute; reflexivity)));
      vm_compute; reflexivity.
Defined.

(** The numeric comparison loop (X9): with a tolerance of [nan] or [inf]
    it never reports a mismatch; with a negative tolerance (a negative
    number or [-inf]) it accepts only when every point that evaluates has a
    NaN difference. *)
Theorem numeric_match_tolerance_extremes {P : Type} (ev : P -> Py (PyFloat * PyFloat)) pts :
  (forall tol, tol = FNaN \/ tol = FPosInf -> numeric_match ev tol pts <> PyOk false) /\
  (forall tol, tol = FNegInf \/ (exists q, tol = FFin q /\ (q < 0)%Q) ->
     numeric_match ev tol pts = PyOk true ->
     forall p a b, In p pts -> ev p = PyOk (a, b) -> fsub a b = FNaN).
Proof.
  split.
  - intros tol Htol. induction pts as [|p ps IH]; simpl; [discriminate|].
    destruct (ev p) as [[a b]|ex].
    + assert (G : fgt (fabs (fsub a b)) tol = false).
      { destruct Htol as [->| ->]; destruct (fabs (fsub a b)); reflexivity. }
      rewrite G. exact IH.
    + destruct (catches_Value_Type _); [exact IH | discriminate].
  - intros tol Htol H p a b Hin Hev.
    pose proof (numeric_match_verdict _ _ _ _ H) as V. symmetry in V.
    pose proof (proj1 (fallback_verdict_spec ev tol pts) V p a b Hin Hev) as G.
    destruct Htol as [->|[q [-> Hq]]];
      [destruct (fsub a b); [discriminate G|discriminate G|discriminate G|reflexivity]|].
    destruct (fsub a b) as [d| | |] eqn:D; [|discriminate G|discriminate G|reflexivity].
    exfalso. simpl in G. apply negb_false_iff, Qle_bool_iff in G.
    pose proof (Qabs_nonneg d). apply (Qlt_not_le _ _ Hq).
    apply Qle_trans with (Qabs d); assumption.
Qed.

Lemma numeric_match_tolerance_extremes_witness :
  numeric_match (eval_single Ref (EInt 1) (EConst CNaN) (ESym "x")) (FFin (-1)) [FFin 0]
    = PyOk true /\
  fsub (FFin 1) FNaN = FNaN.
Proof.
  assert (H : numeric_match (eval_single Ref (EInt 1) (EConst CNaN) (ESym "x"))
                (FFin (-1)) [FFin 0] = PyOk true) by (vm_compute; reflexivity).
  split; [exact H|].
  assert (Hq : (-1 < 0)%Q) by (vm_compute; reflexivity).
  apply (proj2 (numeric_match_tolerance_extremes
                  (eval_single Ref (EInt 1) (EConst CNaN) (ESym "x")) [FFin 0]) (FFin (-1))
           (or_intror (ex_intro (fun q => FFin (-1) = FFin q /\ (q < 0)%Q) (-1)%Q
                         (conj eq_refl Hq))) H
           (FFin 0) (FFin 1) FNaN (or_introl eq_refl)).
  vm_compute; reflexivity.
Defined.

(** [derivative_equivalent] (X10): in the numeric fallback, a test point
    whose evaluation raises an [Exception] other than [ValueError] or
    [TypeError] (after points that pass) aborts the whole check with an
    error result carrying that exception's message. *)
Theorem derivative_point_error_aborts (L : SymPyLib) expr var expected tol seed
  e v cs es pre p post ex :
  derivative_inconclusive L expr var expected e v cs es ->
  continuous_domain L e v = PyOk tt ->
  fst (draw L seed 10) = (pre ++ p :: post)%list ->
  forallb (point_passes (eval_single L cs es v) tol) pre = true ->
  eval_single L cs es v p = PyErr ex -> catches_Value_Type (exc_class ex) = false ->
  is_Exception (exc_class ex) = true ->
  derivative_equivalent L expr var expected tol seed
    = PyOk (mkResult false
        [("error", VStr (exc_msg ex)); ("computed", VNone); ("expected", VNone)]).
Proof.
  intros (x & d & delta & delta' & H1 & H2 & H3 & H4 & H5 & H6 & H7 & H8 & H9)
    Hcd Hpts Hpre Hp Hc Hx.
  unfold derivative_equivalent, derivative_body.
  rewrite H1; cbn [py_bind]. rewrite H2; cbn [py_bind]. rewrite H3; cbn [py_bind].
  rewrite H4; cbn [py_bind]. rewrite H5; cbn [py_bind]. rewrite H6; cbn [py_bind].
  rewrite H7; cbn [py_bind]. rewrite H8; cbn [py_bind]. rewrite H9; cbn [negb].
  unfold _generate_test_points. rewrite Hcd; cbn [py_bind].
  change (Z.to_nat 10) with 10%nat. rewrite Hpts.
  rewrite (numeric_match_app _ _ _ _ Hpre). cbn [numeric_match]. rewrite Hp, Hc.
  cbn [py_bind py_try]. rewrite Hx. reflexivity.
Qed.

Lemma derivative_point_error_aborts_witness :
  derivative_equivalent Ref "x" "x" "1/x" default_tolerance 10
    = PyOk (mkResult false
        [("error", VStr "division by zero"); ("computed", VNone); ("expected", VNone)]).
Proof.
  apply (derivative_point_error_aborts Ref "x" "x" "1/x" default_tolerance 10
           (ESym "x") (ESym "x") (EInt 1) (EPow (ESym "x") (EInt (-1)))
           [] (FFin (inject_Z 0)) (tl (fst (draw Ref 10 10)))
           (mkExc ZeroDivisionError "division by zero")).
  - exists (EPow (ESym "x") (EInt (-1))), (EInt 1),
      (EAdd [EInt 1; EMul [EInt (-1); EPow (ESym "x") (EInt (-1))]]),
      (EAdd [EInt 1; EMul [EInt (-1); EPow (ESym "x") (EInt (-1))]]).
    repeat split; vm_compute; reflexivity.
  - reflexivity.
  - vm_compute; reflexivity.
  - reflexivity.
  - vm_compute; reflexivity.
  - reflexivity.
  - reflexivity.
Defined.

(** [limit_equal] (X11): a direction other than ['left'], ['right'] and
    ['both'] is accepted and computed as ['right'] (one-sided from [+], no
    cross-check); only the reported ['direction'] differs. *)
Theorem limit_unknown_direction_is_right (L : SymPyLib) expr var to d tol :
  (d =? "left") = false -> (d =? "right") = false -> (d =? "both") = false ->
  limit_equal L expr var to d tol
    = py_map (relabel_direction d) (limit_equal L expr var to "right" tol).
Proof.
  intros Hl Hr Hb. unfold limit_equal, limit_body. rewrite Hl, Hr, Hb.
  change ("right" =? "left") with false. change ("right" =? "right") with true.
  change ("right" =? "both") with false. cbn iota.
  destruct (_safe_parse L expr) as [e|ex]; cbn [py_bind py_try];
    [|destruct (is_Exception (exc_class ex)); reflexivity].
  destruct (symbols L var) as [v|ex]; cbn [py_bind py_try];
    [|destruct (is_Exception (exc_class ex)); reflexivity].
  destruct (match to with inl s => _safe_parse L s | inr f => rational L f end)
    as [t|ex]; cbn [py_bind py_try];
    [|destruct (is_Exception (exc_class ex)); reflexivity].
  destruct (limit L e v t "+") as [[c|]|ex]; cbn [py_bind py_try];
    [|reflexivity|destruct (is_Exception (exc_class ex)); reflexivity].
  destruct (expr_eqb c (EConst CNaN)); [reflexivity|].
  unfold limit_finite_check. destruct (_ || _); reflexivity.
Qed.

Lemma limit_unknown_direction_is_right_witness :
  limit_equal Ref "1/x" "x" (inl "0") "sideways" default_tolerance
    = PyOk (mkResult false
        [("computed", VStr "oo"); ("limit_exists", VBool true); ("finite", VBool false)]).
Proof.
  rewrite (limit_unknown_direction_is_right Ref "1/x" "x" (inl "0") "sideways"
             default_tolerance eq_refl eq_refl eq_refl).
  vm_compute; reflexivity.
Defined.

Lemma finite_check_true (L : SymPyLib) c d :
  outcome (limit_finite_check L c d) = true ->
  limit_finite_check L c d
    = mkResult true [("computed", VStr (sstr L c)); ("limit_exists", VBool true);
                     ("finite", VBool true); ("direction", VStr d)] /\
  c <> EConst COo /\ c <> EConst CNegOo.
Proof.
  unfold limit_finite_check.
  destruct (expr_eqb c (EConst COo)) eqn:E1; [discriminate|].
  destruct (expr_eqb c (EConst CNegOo)) eqn:E2; [discriminate|].
  intros _. split; [reflexivity|].
  split; intros ->; [rewrite (proj2 (expr_eqb_eq _ _) eq_refl) in E1
                    | rewrite (proj2 (expr_eqb_eq _ _) eq_refl) in E2]; discriminate.
Qed.

Ltac peel B :=
  repeat match type of B with
  | py_bind ?m _ = _ =>
      let E := fresh "E" in
      destruct m eqn:E; cbn [py_bind] in B; [|discriminate B]
  end.

(** [limit_equal] (X12): a result with [equivalent=true] comes from a
    parsed expression, variable and point whose limit [c] (taken from the
    left for ['left'], from the right otherwise) is not [oo], [-oo] or
    [nan]; for ['both'] the left limit is [c] too.  The result is exactly
    [computed=str(c)], [limit_exists=true], [finite=true] and the given
    direction. *)
Theorem limit_equal_true_result (L : SymPyLib) expr var to d tol r :
  limit_equal L expr var to d tol = PyOk r -> outcome r = true ->
  exists e v t c,
    _safe_parse L expr = PyOk e /\ symbols L var = PyOk v /\
    match to with inl s => _safe_parse L s | inr f => rational L f end = PyOk t /\
    limit L e v t (if d =? "left" then "-" else "+") = PyOk (Some c) /\
    ((d =? "both") = true -> limit L e v t "-" = PyOk (Some c)) /\
    r = mkResult true [("computed", VStr (sstr L c)); ("limit_exists", VBool true);
                       ("finite", VBool true); ("direction", VStr d)] /\
    c <> EConst COo /\ c <> EConst CNegOo /\ c <> EConst CNaN.
Proof.
  unfold limit_equal.
  destruct (limit_body L expr var to d tol) as [a|ex] eqn:B; cbn [py_try];
    [|destruct (is_Exception (exc_class ex)); intros H; [|discriminate H];
      injection H as <-; discriminate].
  intros H; injection H as <-. unfold limit_body in B.
  destruct (_safe_parse L expr) as [e|ex] eqn:E1; cbn [py_bind] in B; [|discriminate B].
  destruct (symbols L var) as [v|ex] eqn:E2; cbn [py_bind] in B; [|discriminate B].
  destruct (match to with inl s => _safe_parse L s | inr f => rational L f end)
    as [t|ex] eqn:E3; cbn [py_bind] in B; [|discriminate B].
  assert (Hdir : (if d =? "left" then limit L e v t "-"
                  else if d =? "right" then limit L e v t "+" else limit L e v t "+")
                 = limit L e v t (if d =? "left" then "-" else "+")).
  { destruct (d =? "left"); [reflexivity|]. destruct (d =? "right"); reflexivity. }
  rewrite Hdir in B.
  destruct (limit L e v t (if d =? "left" then "-" else "+")) as [[c|]|ex] eqn:E4;
    cbn [py_bind] in B; [| injection B as <-; discriminate | discriminate B].
  destruct (expr_eqb c (EConst CNaN)) eqn:En; [injection B as <-; discriminate|].
  assert (Hn : c <> EConst CNaN).
  { intros ->. rewrite (proj2 (expr_eqb_eq _ _) eq_refl) in En. discriminate. }
  intros Ho. exists e, v, t, c.
  do 4 (split; [first [reflexivity | assumption]|]).
  destruct (d =? "both") eqn:Hb.
  - apply String.eqb_eq in Hb; subst d.
    change ("both" =? "left") with false in E4. cbn iota in E4.
    destruct (limit L e v t "-") as [ll|ex] eqn:E5; cbn [py_bind] in B; [|discriminate B].
    rewrite E4 in B; cbn [py_bind] in B.
    destruct (opt_expr_eqb ll (Some c)) eqn:Hlr; cbn [negb] in B;
      [|injection B as <-; discriminate].
    injection B as <-.
    destruct (finite_check_true L c "both" Ho) as [F [F1 F2]].
    split; [|split; [exact F | auto]].
    intros _. destruct ll as [l|]; [|discriminate Hlr].
    apply expr_eqb_eq in Hlr. subst l. reflexivity.
  - injection B as <-.
    destruct (finite_check_true L c d Ho) as [F [F1 F2]].
    split; [intros H; discriminate H | split; [exact F | auto]].
Qed.

Lemma limit_equal_true_result_witness :
  exists r, limit_equal Ref "x^2" "x" (inl "0") "both" default_tolerance = PyOk r /\
  exists e v t c,
    _safe_parse Ref "x^2" = PyOk e /\ symbols Ref "x" = PyOk v /\
    _safe_parse Ref "0" = PyOk t /\
    limit Ref e v t "+" = PyOk (Some c) /\
    (true = true -> limit Ref e v t "-" = PyOk (Some c)) /\
    r = mkResult true [("computed", VStr (sstr Ref c)); ("limit_exists", VBool true);
                       ("finite", VBool true); ("direction", VStr "both")] /\
    c <> EConst COo /\ c <> EConst CNegOo /\ c <> EConst CNaN.
Proof.
  eexists; split; [vm_compute; reflexivity|].
  apply (limit_equal_true_result Ref "x^2" "x" (inl "0") "both" default_tolerance);
    vm_compute; reflexivity.
Defined.

(** [limit_equal] (X13): when the computed limit is [oo] or [-oo] (and, for
    ['both'], the left limit agrees), the result is [equivalent=false] with
    [limit_exists=true] and [finite=false], and no direction entry. *)
Theorem limit_infinite_not_finite (L : SymPyLib) expr var to d tol e v t c :
  _safe_parse L expr = PyOk e -> symbols L var = PyOk v ->
  match to with inl s => _safe_parse L s | inr f => rational L f end = PyOk t ->
  limit L e v t (if d =? "left" then "-" else "+") = PyOk (Some c) ->
  c = EConst COo \/ c = EConst CNegOo ->
  ((d =? "both") = true -> limit L e v t "-" = PyOk (Some c)) ->
  limit_equal L expr var to d tol
    = PyOk (mkResult false
        [("computed", VStr (sstr L c)); ("limit_exists", VBool true);
         ("finite", VBool false)]).
Proof.
  intros H1 H2 H3 H4 H5 H6. unfold limit_equal, limit_body.
  rewrite H1; cbn [py_bind]. rewrite H2; cbn [py_bind]. rewrite H3; cbn [py_bind].
  assert (H4' : (if d =? "left" then limit L e v t "-"
                 else if d =? "right" then limit L e v t "+" else limit L e v t "+")
                = PyOk (Some c)).
  { revert H4. destruct (d =? "left"); [auto|]. destruct (d =? "right"); auto. }
  rewrite H4'; cbn [py_bind].
  destruct (d =? "both") eqn:Hb.
  - rewrite (H6 eq_refl); cbn [py_bind].
    apply String.eqb_eq in Hb; subst d.
    change ("both" =? "left") with false in H4. cbn iota in H4.
    rewrite H4; cbn [py_bind].
    destruct H5 as [-> | ->]; reflexivity.
  - destruct H5 as [-> | ->]; reflexivity.
Qed.

Lemma limit_infinite_not_finite_witness :
  limit_equal Ref "1/x" "x" (inl "0") "right" default_tolerance
    = PyOk (mkResult false
        [("computed", VStr "oo"); ("limit_exists", VBool true); ("finite", VBool false)]).
Proof.
  apply (limit_infinite_not_finite Ref "1/x" "x" (inl "0") "right" default_tolerance
           (EPow (ESym "x") (EInt (-1))) (ESym "x") (EInt 0) (EConst COo));
    try (vm_compute; reflexivity).
  - left; reflexivity.
  - intros H; discriminate H.
Defined.

(** [dimensional_check] (X14): every result it returns, the error ones
    included, reports the requested [expected_unit]; a true outcome
    requires the expression to parse and pint to accept the unit, and then
    reports [str] of the parsed expression.  Only an exception that is not
    an [Exception] escapes it. *)
Theorem dimensional_check_echoes_unit (L : SymPyLib) expr u :
  (forall r, dimensional_check L expr u = PyOk r ->
    lookup "expected_unit" (details r) = Some (VStr u) /\
    (outcome r = true ->
       ureg_parse_expression L u = PyOk tt /\
       exists e, _safe_parse L expr = PyOk e /\
         lookup "expression" (details r) = Some (VStr (sstr L e)))) /\
  (forall ex, dimensional_check L expr u = PyErr ex -> is_Exception (exc_class ex) = false).
Proof.
  split; [|intros ex H; exact (proj2 (py_try_Exception_err _ _ _ H))].
  intros r. unfold dimensional_check, dimensional_body.
  destruct (_safe_parse L expr) as [e|ex]; cbn [py_bind py_try].
  - destruct (ureg_parse_expression L u) as [[]|ex] eqn:U; cbn [py_bind py_try].
    + intros H; injection H as <-. split; [reflexivity|].
      intros _. split; [reflexivity|]. exists e; split; reflexivity.
    + destruct (is_Exception (exc_class ex)); intros H; [|discriminate H].
      injection H as <-. split; [reflexivity | intros H; discriminate H].
  - destruct (is_Exception (exc_class ex)); intros H; [|discriminate H].
    injection H as <-. split; [reflexivity | intros H; discriminate H].
Qed.

Lemma dimensional_check_echoes_unit_witness :
  exists r, dimensional_check Ref "x" "parsec" = PyOk r /\
    lookup "expected_unit" (details r) = Some (VStr "parsec").
Proof.
  destruct (dimensional_check Ref "x" "parsec") as [r|ex] eqn:H;
    [|vm_compute in H; discriminate H].
  exists r; split; [reflexivity|].
  exact (proj1 (proj1 (dimensional_check_echoes_unit Ref "x" "parsec") r H)).
Defined.

Ltac same_steps :=
  repeat first
    [ progress cbn [py_bind py_try]
    | match goal with
      | |- context [py_bind ?m _] =>
          lazymatch m with
          | py_try _ _ _ => fail
          | py_bind _ _ => fail
          | _ => destruct m
          end
      end
    | match goal with |- context [if ?b then _ else _] => destruct b end ].

(** [integral_equivalent] with [constant_free=True] (X15): the outcome
    depends on the expected answer only through its part that
    [_remove_constants] keeps; two expected answers that parse to
    expressions with the same part give the same outcome (for instance
    [x + y] and [5 + x + y]). *)
Theorem integral_outcome_through_remove_constants (L : SymPyLib) expr var
  expected1 expected2 x1 x2 v tol seed :
  _safe_parse L expected1 = PyOk x1 -> _safe_parse L expected2 = PyOk x2 ->
  symbols L var = PyOk v -> _remove_constants L x1 v = _remove_constants L x2 v ->
  py_outcome (integral_equivalent L expr var expected1 true tol seed)
  = py_outcome (integral_equivalent L expr var expected2 true tol seed).
Proof.
  intros H1 H2 H3 H4. unfold py_outcome, py_map, integral_equivalent, integral_body.
  destruct (_safe_parse L expr) as [e|ex]; cbn [py_bind py_try];
    [|destruct (is_Exception (exc_class ex)); reflexivity].
  rewrite H1, H2; cbn [py_bind]. rewrite H3; cbn [py_bind].
  destruct (integrate L e v) as [ci|ex]; cbn [py_bind py_try];
    [|destruct (is_Exception (exc_class ex)); reflexivity].
  cbv iota. rewrite H4.
  same_steps; reflexivity.
Qed.

Lemma integral_outcome_through_remove_constants_witness :
  py_outcome (integral_equivalent RefX "3" "x" "x + y" true default_tolerance 0)
  = py_outcome (integral_equivalent RefX "3" "x" "5 + x + y" true default_tolerance 0).
Proof.
  apply (integral_outcome_through_remove_constants RefX "3" "x" "x + y" "5 + x + y"
           (EAdd [ESym "x"; ESym "y"]) (EAdd [EInt 5; ESym "x"; ESym "y"]) (ESym "x"));
    vm_compute; reflexivity.
Defined.

Lemma endpoint_passes (m : Py Result) (h : PyExc -> Py Response) :
  (forall ex, m = PyErr ex -> is_Exception (exc_class ex) = false) ->
  py_try (r <- m ;; PyOk (Respond r)) is_Exception h = py_map Respond m.
Proof.
  unfold py_map. destruct m as [r|ex]; intros H; cbn [py_bind py_try]; [reflexivity|].
  rewrite (H ex eq_refl). reflexivity.
Qed.

(** The HTTP endpoints (X16): each endpoint answers with the result of its
    engine on the request fields, and raises exactly what its engine
    raises.  An engine lets only exceptions that are not an [Exception]
    escape, and those pass the endpoint's [except Exception] too, so the
    [HTTPException(400)] branch is never taken. *)
Theorem endpoints_respond (L : SymPyLib) :
  (forall request seed,
     verify_derivative L request seed
     = py_map Respond (derivative_equivalent L (dr_expr request) (dr_var request)
                         (dr_expected request) (dr_tolerance request) seed)) /\
  (forall request seed,
     verify_integral L request seed
     = py_map Respond (integral_equivalent L (ir_expr request) (ir_var request)
                         (ir_expected request) (ir_constant_free request)
                         (ir_tolerance request) seed)) /\
  (forall request,
     verify_limit L request
     = py_map Respond (limit_equal L (lr_expr request) (lr_var request) (lr_to request)
                         (lr_direction request) (lr_tolerance request))) /\
  (forall request seed,
     verify_algebra L request seed
     = py_map Respond (algebra_equiv L (ar_lhs request) (ar_rhs request)
                         (ar_tolerance request) seed)) /\
  (forall request,
     verify_dimensional L request
     = py_map Respond (dimensional_check L (dmr_expr request) (dmr_expected_unit request))) /\
  (forall request seed,
     verify_numeric_probe L request seed
     = py_map Respond (numeric_probe L (npr_expr request) (npr_num_points request) seed)).
Proof.
  unfold verify_derivative, verify_integral, verify_limit, verify_algebra,
    verify_dimensional, verify_numeric_probe.
  repeat split; intros; apply endpoint_passes; intros ex E;
    unfold derivative_equivalent, integral_equivalent, limit_equal,
      algebra_equiv, dimensional_check, numeric_probe in E;
    exact (proj2 (py_try_Exception_err _ _ _ E)).
Qed.

Lemma endpoints_respond_witness :
  verify_derivative Ref {| dr_expr := "exec('raise SystemExit')"; dr_var := "x";
                           dr_expected := "1"; dr_tolerance := default_tolerance |} 0
  = PyErr (mkExc SystemExit EmptyString).
Proof.
  rewrite (proj1 (endpoints_respond Ref)). vm_compute. reflexivity.
Defined.
